(** * music_analysis: GEMS emotion predictions against listener ratings

    A shallow embedding of [src/music.py] and the properties its
    specification states about it.

    Conventions of the embedding.
    - A Python [str] is a [string] (its UTF-8 bytes); a [dict] is an
      insertion-ordered association list with unique keys ([PyDict]).
    - Among the run-time values an [int] is an integer of any size and a
      [float] a rational: the embedding abstracts from binary64 rounding
      and has no value for the non-finite floats ([nan], [inf]).  The
      difference of an [int] and a [float] raises [OverflowError] when
      the [int] is beyond the range of [float], as in Python.
    - A computed number (a statistic of a typed bundle, a difference, an
      average) is an exact rational [Q].  It stands for a finite [float]
      or an [int] that a [float] can hold; statements about such numbers
      are statements about finite numbers within that range.
    - Values whose type is only known at run time (whatever the JSON
      decoder returns) are [pyval]; operations on them return a [result],
      [Raise e] standing for a raised exception.
    - Whatever lies outside the program is a field of [World]: the
      environment, the file system, the network and the JSON decoder of
      the Python standard library.  Effects are recorded as a trace of
      [event]s. *)

From Stdlib Require Import ZArith QArith Qabs Qround Lia Lqa.
From Stdlib Require Import Bool List String Ascii DecimalString.
Import ListNotations.

Open Scope string_scope.
Open Scope Z_scope.

(** ** Characters and strings *)

Definition chr (n : nat) : string := String (ascii_of_nat n) EmptyString.

(** The double quote and the line feed. *)
Definition dq : string := chr 34.
Definition nl : string := chr 10.

Definition quoted (s : string) : string := dq ++ s ++ dq.

(** [str(n)] for a Python [int]. *)
Definition str_of_Z (n : Z) : string := NilZero.string_of_int (Z.to_int n).

Definition string_of_chars (l : list ascii) : string := string_of_list_ascii l.
Definition chars (s : string) : list ascii := list_ascii_of_string s.

(** [needle in haystack] for two strings. *)
Fixpoint is_infix (needle hay : string) : bool :=
  prefix needle hay ||
  match hay with
  | EmptyString => false
  | String _ rest => is_infix needle rest
  end.

(** [s.endswith(suffix)]. *)
Definition ends_with (suffix s : string) : bool :=
  (String.length suffix <=? String.length s)%nat &&
  String.eqb (substring (String.length s - String.length suffix)
                        (String.length suffix) s) suffix.

(** Number of code points of a UTF-8 string: the bytes that are not
    continuation bytes (10xxxxxx). *)
Fixpoint utf8_length (s : string) : nat :=
  match s with
  | EmptyString => O
  | String c rest =>
      let n := nat_of_ascii c in
      if ((128 <=? n) && (n <? 192))%nat then utf8_length rest
      else S (utf8_length rest)
  end.

(** ** Exceptions and results *)

#[warnings="-register-all"]
Inductive pyval : Type :=
| PNone
| PBool (b : bool)
| PInt (z : Z)
| PNum (q : Q)
| PStr (s : string)
| PList (l : list pyval)
| PDict (d : list (string * pyval)).

Inductive exn : Type :=
| RuntimeError (msg : string)
| Exception_ (msg : string)
| FileNotFoundError (msg : string)
| OSError (msg : string)
| RequestException (msg : string)
| JSONDecodeError
| ValueError (msg : string)
| RecursionError
| OverflowError
| KeyError (key : pyval)
| IndexError
| TypeError.

(** [isinstance(e, FileNotFoundError)]; every [exn] is an [Exception]. *)
Definition is_FileNotFoundError (e : exn) : bool :=
  match e with FileNotFoundError _ => true | _ => false end.

Inductive result (A : Type) : Type :=
| Ok (a : A)
| Raise (e : exn).
Arguments Ok {A} a.
Arguments Raise {A} e.

Definition rbind {A B} (m : result A) (k : A -> result B) : result B :=
  match m with
  | Ok a => k a
  | Raise e => Raise e
  end.

Declare Scope result_scope.
Delimit Scope result_scope with result.
Notation "x <- m ;; k" := (rbind m (fun x => k))
  (at level 61, m at next level, right associativity) : result_scope.

(** ** Insertion-ordered dictionaries *)

Module PyDict.

Definition t (V : Type) : Type := list (string * V).

Fixpoint get {V} (k : string) (d : t V) : option V :=
  match d with
  | [] => None
  | (k', v) :: rest => if String.eqb k k' then Some v else get k rest
  end.

Definition mem {V} (k : string) (d : t V) : bool :=
  match get k d with Some _ => true | None => false end.

(** [d[k] = v]: an existing key keeps its position, a new key goes last. *)
Fixpoint set {V} (k : string) (v : V) (d : t V) : t V :=
  match d with
  | [] => [(k, v)]
  | (k', v') :: rest =>
      if String.eqb k k' then (k', v) :: rest else (k', v') :: set k v rest
  end.

Definition keys {V} (d : t V) : list string := map fst d.
Definition values {V} (d : t V) : list V := map snd d.
Definition items {V} (d : t V) : list (string * V) := d.

(** A dict built from a sequence of (key, value) pairs, as a literal or
    a decoder builds it: later duplicates overwrite. *)
Definition of_pairs {V} (l : list (string * V)) : t V :=
  fold_left (fun d kv => set (fst kv) (snd kv) d) l [].

End PyDict.

(** ** Operations on run-time typed values *)

(** The numbers: an [int] (a [bool] is one) or a [float]. *)
Inductive number : Type :=
| NInt (z : Z)
| NFloat (q : Q).

Definition as_number (v : pyval) : option number :=
  match v with
  | PInt z => Some (NInt z)
  | PNum q => Some (NFloat q)
  | PBool true => Some (NInt 1)
  | PBool false => Some (NInt 0)
  | _ => None
  end.

(** An [int] becomes a [float] unless it rounds beyond the largest one:
    from [2^1024 - 2^970] on, the conversion raises [OverflowError]. *)
Definition float_limit : Z := 2 ^ 1024 - 2 ^ 970.

Definition int_fits_float (z : Z) : bool := Z.abs z <? float_limit.

Definition is_str (k : string) (v : pyval) : bool :=
  match v with PStr s => String.eqb k s | _ => false end.

(** [k in v] for a string [k]. *)
Definition py_contains (k : string) (v : pyval) : result bool :=
  match v with
  | PDict d => Ok (PyDict.mem k d)
  | PList l => Ok (existsb (is_str k) l)
  | PStr s => Ok (is_infix k s)
  | _ => Raise TypeError
  end.

(** [v[k]] for a string [k]. *)
Definition py_getitem (v : pyval) (k : string) : result pyval :=
  match v with
  | PDict d =>
      match PyDict.get k d with
      | Some x => Ok x
      | None => Raise (KeyError (PStr k))
      end
  | _ => Raise TypeError
  end.

(** The first code point of a string: its first byte and the
    continuation bytes that follow. *)
Fixpoint continuation_bytes (s : string) : string :=
  match s with
  | EmptyString => EmptyString
  | String c rest =>
      let n := nat_of_ascii c in
      if ((128 <=? n) && (n <? 192))%nat
      then String c (continuation_bytes rest) else EmptyString
  end.

(** [v[0]]. *)
Definition py_getitem0 (v : pyval) : result pyval :=
  match v with
  | PList (x :: _) => Ok x
  | PList [] => Raise IndexError
  | PStr EmptyString => Raise IndexError
  | PStr (String c rest) => Ok (PStr (String c (continuation_bytes rest)))
  | PDict _ => Raise (KeyError (PInt 0))
  | _ => Raise TypeError
  end.

(** [a - b]: exact between two [int]s, between two [float]s the
    rational difference; an [int] against a [float] is first made a
    [float], which raises [OverflowError] beyond the range; anything else
    is a [TypeError]. *)
Definition py_sub (a b : pyval) : result Q :=
  match as_number a, as_number b with
  | Some (NInt x), Some (NInt y) => Ok (inject_Z (x - y))
  | Some (NInt x), Some (NFloat y) =>
      if int_fits_float x then Ok (inject_Z x - y)%Q else Raise OverflowError
  | Some (NFloat x), Some (NInt y) =>
      if int_fits_float y then Ok (x - inject_Z y)%Q else Raise OverflowError
  | Some (NFloat x), Some (NFloat y) => Ok (x - y)%Q
  | _, _ => Raise TypeError
  end.

(** [len(v)]. *)
Definition py_len (v : pyval) : result Z :=
  match v with
  | PDict d => Ok (Z.of_nat (List.length d))
  | PList l => Ok (Z.of_nat (List.length l))
  | PStr s => Ok (Z.of_nat (utf8_length s))
  | _ => Raise TypeError
  end.

(** ** Number formatting *)

(** Rounding of a non-negative rational to the nearest integer, ties to
    even. *)
Definition round_half_even (q : Q) : Z :=
  let f := Qfloor q in
  match (q - inject_Z f ?= 1 # 2)%Q with
  | Lt => f
  | Gt => f + 1
  | Eq => if Z.even f then f else f + 1
  end.

(** Four decimal digits, zero padded. *)
Definition pad4 (n : Z) : string :=
  match str_of_Z (10000 + n) with
  | String _ digits => digits
  | EmptyString => EmptyString
  end.

(** [f"{x:.4f}"] for a finite number [x]. *)
Definition format_4f (x : Q) : string :=
  let n := round_half_even (Qabs x * 10000) in
  (if Qlt_le_dec x 0 then "-" else "") ++
  str_of_Z (n / 10000) ++ "." ++ pad4 (n mod 10000).

(** ** The fixed emotion keys

    [calculate_differences], [create_overall_summary_table] and
    [create_song_level_breakdown_table] each bind the same literal list
    to their local [emotions]. *)
Definition emotions : list string :=
  ["amazement"; "solemnity"; "tenderness"; "nostalgia"; "calmness";
   "power"; "joyful_activation"; "tension"; "sadness"].

(** ** get_gems_prompt *)

Definition schema_line (k : string) : string :=
  "  " ++ quoted k ++ ": { " ++ quoted "mean" ++ ": 0.0, "
       ++ quoted "std" ++ ": 0.0 }".

Definition prompt_intro : string :=
"You are analyzing a music audio clip.
This audio has been listened to and rated by N people.
Each person indicated whether they strongly felt each of the following emotions while listening.
The emotions are based on the Geneva Emotional Music Scales (GEMS):
".

Definition prompt_emotions : string :=
"- amazement (wonder, awe, happiness)
- solemnity (transcendence, inspiration, thrills)
- tenderness (sensuality, affect, feeling of love)
- nostalgia (dreamy, melancholic, sentimental)
- calmness (relaxation, serenity, meditative)
- power (strong, heroic, triumphant, energetic)
- joyful_activation (bouncy, animated, like dancing)
- tension (nervous, impatient, irritated)
- sadness (depressed, sorrowful)
".

Definition prompt_task : string :=
"Each listener gives a binary response (0 or 1) for each emotion.
Task:
Assume ".

Definition prompt_estimate : string :=
".
Based only on the audio content:
For each emotion, estimate:
1. The average rating (mean, between 0 and 1)
2. The standard deviation of the ratings (between 0 and 0.5)
Output requirements:
- Return JSON only
- Use exactly the emotion keys listed above
- Each emotion must contain:
  - ".

Definition prompt_rules : string :=
": float
- Do NOT include explanations, comments, or extra text
- Do NOT add or remove emotions
- Do NOT round excessively (use up to 4 decimal places)
Output JSON schema:
{
".

Definition prompt_schema : string :=
  schema_line "amazement" ++ "," ++ nl ++
  schema_line "solemnity" ++ "," ++ nl ++
  schema_line "tenderness" ++ "," ++ nl ++
  schema_line "nostalgia" ++ "," ++ nl ++
  schema_line "calmness" ++ "," ++ nl ++
  schema_line "power" ++ "," ++ nl ++
  schema_line "joyful_activation" ++ "," ++ nl ++
  schema_line "tension" ++ "," ++ nl ++
  schema_line "sadness" ++ nl ++
  "}".

(** The text that carries the listener count. *)
Definition listeners_phrase (n_listeners : Z) : string :=
  "N = " ++ str_of_Z n_listeners ++ " listeners".

Definition get_gems_prompt (n_listeners : Z) : string :=
  prompt_intro ++ prompt_emotions ++ prompt_task ++
  listeners_phrase n_listeners ++ prompt_estimate ++
  quoted "mean" ++ ": float" ++ nl ++ "  - " ++ quoted "std" ++
  prompt_rules ++ prompt_schema.



(** ** The fallback pattern of the extractor

    [re.search(r'\{.*\}', content, re.DOTALL)]: the leftmost match starts
    at the first opening brace that has a closing brace after it, and the
    greedy [.*], which crosses line ends under [DOTALL], carries it to the
    last closing brace of the text. *)

Definition open_brace : ascii := "{"%char.
Definition close_brace : ascii := "}"%char.

(** The longest prefix of [s] that ends with a closing brace. *)
Fixpoint upto_last_close (s : string) : option string :=
  match s with
  | EmptyString => None
  | String c rest =>
      match upto_last_close rest with
      | Some m => Some (String c m)
      | None => if Ascii.eqb c close_brace
                then Some (String c EmptyString) else None
      end
  end.

(** [json_match.group()] when the search succeeds, [None] otherwise. *)
Fixpoint re_search_braces (s : string) : option string :=
  match s with
  | EmptyString => None
  | String c rest =>
      if Ascii.eqb c open_brace then
        match upto_last_close rest with
        | Some m => Some (String c m)
        | None => None
        end
      else re_search_braces rest
  end.

(** ** base64.b64encode *)

Definition b64_alphabet : string :=
  "ABCDEFGHIJKLMNOPQRSTUVWXYZabcdefghijklmnopqrstuvwxyz0123456789+/".

Definition b64_char (n : N) : ascii :=
  match String.get (N.to_nat n) b64_alphabet with
  | Some c => c
  | None => "="%char
  end.

Fixpoint b64encode_chars (l : list ascii) : list ascii :=
  match l with
  | [] => []
  | [a] =>
      let x := N_of_ascii a in
      [b64_char (x / 4); b64_char ((x mod 4) * 16); "="%char; "="%char]
  | [a; b] =>
      let x := N_of_ascii a in
      let y := N_of_ascii b in
      [b64_char (x / 4); b64_char ((x mod 4) * 16 + y / 16);
       b64_char ((y mod 16) * 4); "="%char]
  | a :: b :: c :: rest =>
      let x := N_of_ascii a in
      let y := N_of_ascii b in
      let z := N_of_ascii c in
      b64_char (x / 4) :: b64_char ((x mod 4) * 16 + y / 16)
        :: b64_char ((y mod 16) * 4 + z / 64) :: b64_char (z mod 64)
        :: b64encode_chars rest
  end%N.

Definition b64encode (bytes : string) : string :=
  string_of_chars (b64encode_chars (chars bytes)).

(** ** The world outside the program *)

Definition OPENROUTER_URL : string :=
  "https://llmfoundry.straive.com/openrouter/v1/chat/completions".
Definition MODEL_NAME : string := "google/gemini-3-pro-preview".

Record Request : Type := {
  req_url : string;
  req_headers : PyDict.t string;
  req_json : pyval
}.

Record Response : Type := {
  status_code : Z;
  text : string
}.

Record World : Type := {
  (** [json.loads] and [json.load] on a [str]: the value, or what the
      decoder raises.  Besides [JSONDecodeError] CPython raises
      [RecursionError] on deep nesting and a plain [ValueError] on an
      integer of more digits than the interpreter converts. *)
  json_loads : string -> result pyval;
  (** [os.environ.get]. *)
  environ_get : string -> option string;
  (** The text of [emotify_song_level_stats.json], [None] when the file
      does not exist. *)
  truth_file : option string;
  (** The names of the entries of [data/raw], in the order the directory
      yields them. *)
  listdir : list string;
  (** [open(path, 'rb').read()]. *)
  read_bytes : string -> result string;
  (** [requests.post]. *)
  http_post : Request -> result Response
}.

(** ** Tables *)

Inductive cell : Type :=
| CStr (s : string)
| CNaN.

Record DataFrame : Type := {
  columns : list string;
  rows : list (list cell)
}.

Inductive event : Type :=
| EPrint (line : string)
  (** [print(f"{prefix}{e}")] for an exception [e]. *)
| EPrintExn (prefix : string) (e : exn)
| EOpenRead (path : string)
| EHttpPost (r : Request)
| EToCsv (path : string) (df : DataFrame).

(** Computations that leave a trace and may raise. *)
Definition eff (A : Type) : Type := list event * result A.

Definition ret {A} (a : A) : eff A := ([], Ok a).
Definition raise {A} (e : exn) : eff A := ([], Raise e).
Definition emit (ev : event) : eff unit := ([ev], Ok tt).
Definition lift {A} (r : result A) : eff A := ([], r).

Definition bind {A B} (m : eff A) (k : A -> eff B) : eff B :=
  match m with
  | (tr, Ok a) => let (tr', r) := k a in ((tr ++ tr')%list, r)
  | (tr, Raise e) => (tr, Raise e)
  end.

Declare Scope eff_scope.
Delimit Scope eff_scope with eff.
Notation "x <- m ;; k" := (bind m (fun x => k))
  (at level 61, m at next level, right associativity) : eff_scope.
Notation "m ;;; k" := (bind m (fun _ => k))
  (at level 61, right associativity) : eff_scope.

Definition print (line : string) : eff unit := emit (EPrint line).

(** ** analyze_audio *)

(** [not api_key]: the variable is unset or empty. *)
Definition api_key_missing (api_key : option string) : bool :=
  match api_key with
  | None => true
  | Some EmptyString => true
  | Some _ => false
  end.

Definition build_payload (prompt audio_b64 : string) : pyval :=
  PDict [("model", PStr MODEL_NAME);
         ("messages", PList [PDict [
            ("role", PStr "user");
            ("content", PList [
               PDict [("type", PStr "text"); ("text", PStr prompt)];
               PDict [("type", PStr "audio");
                      ("audio", PDict [("data", PStr audio_b64);
                                       ("format", PStr "audio/ogg")])]])]])].

Definition build_headers (api_key : string) : PyDict.t string :=
  [("Authorization", "Bearer " ++ api_key);
   ("Content-Type", "application/json")].

(** [json.loads(content)]: the decoder's answer for a [str], a
    [TypeError] for any other argument. *)
Definition py_json_loads (w : World) (content : pyval) : result pyval :=
  match content with
  | PStr s => json_loads w s
  | _ => Raise TypeError
  end.

(** Lines 87-92: the [try]/[except json.JSONDecodeError] that ends
    [analyze_audio].  Only a [JSONDecodeError] of the first [json.loads]
    leads to the handler; the second [json.loads] runs inside it, where
    nothing catches what it raises. *)
Definition extract (w : World) (content : pyval) : result pyval :=
  match py_json_loads w content with
  | Ok v => Ok v
  | Raise JSONDecodeError =>
      match content with
      | PStr s =>
          match re_search_braces s with
          | Some matched => py_json_loads w (PStr matched)
          | None => Ok (PDict [])
          end
      | _ => Raise TypeError
      end
  | Raise e => Raise e
  end.

(** [response.json()['choices'][0]['message']['content']]. *)
Definition response_content (w : World) (response : Response) : result pyval :=
  (body <- py_json_loads w (PStr (text response)) ;;
   choices <- py_getitem body "choices" ;;
   choice <- py_getitem0 choices ;;
   message <- py_getitem choice "message" ;;
   py_getitem message "content")%result.

Definition analyze_audio (w : World) (audio_path : string) (n_listeners : Z)
  : eff pyval :=
  let api_key := environ_get w "OPENROUTER_API_KEY" in
  if api_key_missing api_key then
    raise (RuntimeError "OPENROUTER_API_KEY not set")
  else
    (emit (EOpenRead audio_path) ;;;
     bytes <- lift (read_bytes w audio_path) ;;
     let audio_b64 := b64encode bytes in
     let request :=
       {| req_url := OPENROUTER_URL;
          req_headers :=
            build_headers (match api_key with Some k => k | None => "" end);
          req_json := build_payload (get_gems_prompt n_listeners) audio_b64 |} in
     emit (EHttpPost request) ;;;
     response <- lift (http_post w request) ;;
     if negb (status_code response =? 200) then
       raise (Exception_ ("API error: " ++ str_of_Z (status_code response)))
     else
       content <- lift (response_content w response) ;;
       lift (extract w content))%eff.

(** ** load_ground_truth_and_listeners *)

Definition truth_path : string := "emotify_song_level_stats.json".

Definition listeners : PyDict.t Z :=
  [("song_1", 48); ("song_10", 17); ("song_11", 50); ("song_12", 45);
   ("song_13", 27); ("song_14", 11); ("song_15", 11); ("song_16", 12);
   ("song_17", 11); ("song_18", 11); ("song_19", 11); ("song_2", 47);
   ("song_20", 11); ("song_21", 53); ("song_22", 45); ("song_23", 19);
   ("song_24", 12); ("song_25", 24); ("song_26", 12); ("song_27", 12);
   ("song_28", 28); ("song_29", 12); ("song_3", 45); ("song_30", 12);
   ("song_31", 50); ("song_32", 46); ("song_33", 26); ("song_34", 14);
   ("song_35", 13); ("song_36", 14); ("song_37", 14); ("song_38", 13);
   ("song_39", 14); ("song_4", 46); ("song_40", 14); ("song_5", 17);
   ("song_6", 17); ("song_7", 17); ("song_8", 18); ("song_9", 17)].

Definition load_ground_truth_and_listeners (w : World)
  : eff (pyval * PyDict.t Z) :=
  match truth_file w with
  | None =>
      raise (FileNotFoundError ("Truth data file not found: " ++ truth_path))
  | Some contents =>
      (truth_data <- lift (py_json_loads w (PStr contents)) ;;
       ret (truth_data, listeners))%eff
  end.

(** ** calculate_differences *)

Record DiffEntry : Type := {
  diff_mean : Q;
  diff_std : Q
}.

Definition DifferenceRecord : Type := PyDict.t DiffEntry.

(** The penalty of the [else] branch: [1.0] and [0.5]. *)
Definition max_penalty : DiffEntry :=
  {| diff_mean := 1; diff_std := 1 # 2 |}.

(** One turn of the loop body: the entry stored under [emotion]. *)
Definition emotion_difference (truth pred : pyval) (emotion : string)
  : result DiffEntry :=
  (in_truth <- py_contains emotion truth ;;
   in_both <- (if in_truth then py_contains emotion pred else Ok false) ;;
   if in_both then
     t <- py_getitem truth emotion ;;
     truth_mean <- py_getitem t "mean" ;;
     p <- py_getitem pred emotion ;;
     pred_mean <- py_getitem p "mean" ;;
     dm <- py_sub truth_mean pred_mean ;;
     t' <- py_getitem truth emotion ;;
     truth_std <- py_getitem t' "std" ;;
     p' <- py_getitem pred emotion ;;
     pred_std <- py_getitem p' "std" ;;
     ds <- py_sub truth_std pred_std ;;
     Ok {| diff_mean := Qabs dm; diff_std := Qabs ds |}
   else Ok max_penalty)%result.

Fixpoint calculate_differences_loop (truth pred : pyval)
  (todo : list string) (differences : DifferenceRecord)
  : result DifferenceRecord :=
  match todo with
  | [] => Ok differences
  | emotion :: rest =>
      (entry <- emotion_difference truth pred emotion ;;
       calculate_differences_loop truth pred rest
         (PyDict.set emotion entry differences))%result
  end.

Definition calculate_differences (truth pred : pyval)
  : result DifferenceRecord :=
  calculate_differences_loop truth pred emotions [].

(** ** Typed bundles

    A StatsBundle of the data model and the run-time value it is. *)

Record EmotionStats : Type := {
  mean : Q;
  std : Q
}.

Definition StatsBundle : Type := PyDict.t EmotionStats.

Definition py_of_stats (s : EmotionStats) : pyval :=
  PDict [("mean", PNum (mean s)); ("std", PNum (std s))].

Definition py_of_bundle (b : StatsBundle) : pyval :=
  PDict (map (fun kv => (fst kv, py_of_stats (snd kv))) b).

(** ** pandas.DataFrame *)

(** [pd.DataFrame(data)] for a dict of equally long columns: one column
    per key, row [i] made of the [i]-th entries. *)
Definition DataFrame_of_columns (data : PyDict.t (list string)) : DataFrame :=
  let height :=
    match data with
    | [] => O
    | (_, col) :: _ => List.length col
    end in
  {| columns := PyDict.keys data;
     rows := map (fun i =>
                    map (fun col => match nth_error col i with
                                    | Some s => CStr s
                                    | None => CNaN
                                    end) (PyDict.values data))
                 (seq 0 height) |}.

(** The columns of a frame built from records: the keys in the order
    the records first show them. *)
Definition add_column (cols : list string) (k : string) : list string :=
  if existsb (String.eqb k) cols then cols else (cols ++ [k])%list.

Definition record_columns (records : list (PyDict.t string)) : list string :=
  fold_left (fun cols record => fold_left add_column (PyDict.keys record) cols)
            records [].

(** [pd.DataFrame(rows)] for a list of records: no record, no column. *)
Definition DataFrame_of_records (records : list (PyDict.t string)) : DataFrame :=
  let cols := record_columns records in
  {| columns := cols;
     rows := map (fun record =>
                    map (fun c => match PyDict.get c record with
                                  | Some s => CStr s
                                  | None => CNaN
                                  end) cols)
                 records |}.

(** ** create_overall_summary_table *)

Definition CorpusResults : Type := PyDict.t DifferenceRecord.

(** The inner loop: the two lists after one song. *)
Definition collect_song (song_diffs : DifferenceRecord)
  (acc : list Q * list Q) : list Q * list Q :=
  fold_left
    (fun acc emotion =>
       match PyDict.get emotion song_diffs with
       | Some entry =>
           ((fst acc ++ [diff_mean entry])%list,
            (snd acc ++ [diff_std entry])%list)
       | None => acc
       end)
    emotions acc.

(** The outer loop: [(all_mean_diffs, all_std_diffs)]. *)
Definition collect_all (all_differences : CorpusResults) : list Q * list Q :=
  fold_left (fun acc song_diffs => collect_song song_diffs acc)
            (PyDict.values all_differences) ([], []).

(** [sum(l)]. *)
Definition py_sum (l : list Q) : Q := fold_left Qplus l 0%Q.

(** [sum(l) / len(l) if l else 0], on finite numbers. *)
Definition average (l : list Q) : Q :=
  match l with
  | [] => 0%Q
  | _ => (py_sum l / inject_Z (Z.of_nat (List.length l)))%Q
  end.

Definition avg_mean_diff (all_differences : CorpusResults) : Q :=
  average (fst (collect_all all_differences)).

Definition avg_std_diff (all_differences : CorpusResults) : Q :=
  average (snd (collect_all all_differences)).

Definition create_overall_summary_table (all_differences : CorpusResults)
  : DataFrame :=
  DataFrame_of_columns
    [("Metric", ["Average Difference in Mean"; "Average Difference in Std"]);
     ("Value", [format_4f (avg_mean_diff all_differences);
                format_4f (avg_std_diff all_differences)])].

(** ** create_song_level_breakdown_table *)

(** The text stored under an emotion: the [if]/[else] of both inner
    loops. *)
Definition emotion_cell (song_diffs : DifferenceRecord)
  (field : DiffEntry -> Q) (emotion : string) : string :=
  match PyDict.get emotion song_diffs with
  | Some entry => format_4f (field entry)
  | None => "N/A"
  end.

(** One row: the two leading entries, then one entry per emotion. *)
Definition metric_row (song_id : string) (song_diffs : DifferenceRecord)
  (metric : string) (field : DiffEntry -> Q) : PyDict.t string :=
  fold_left
    (fun row emotion =>
       PyDict.set emotion (emotion_cell song_diffs field emotion) row)
    emotions [("song_id", song_id); ("metric", metric)].

Definition breakdown_rows (all_differences : CorpusResults)
  : list (PyDict.t string) :=
  fold_left
    (fun rows item =>
       let mean_row := metric_row (fst item) (snd item) "diff_mean" diff_mean in
       let std_row := metric_row (fst item) (snd item) "diff_std" diff_std in
       ((rows ++ [mean_row]) ++ [std_row])%list)
    (PyDict.items all_differences) [].

Definition create_song_level_breakdown_table (all_differences : CorpusResults)
  : DataFrame :=
  DataFrame_of_records (breakdown_rows all_differences).

(** ** main *)

Definition data_dir : string := "data/raw".

(** [fnmatch] against [song_*.opus]. *)
Definition matches_song_opus (name : string) : bool :=
  prefix "song_" name && ends_with ".opus" name &&
  (10 <=? String.length name)%nat.

(** [data_dir.glob("song_*.opus")], as file names. *)
Definition glob_song_opus (w : World) : list string :=
  filter matches_song_opus (listdir w).

(** [name.rfind('.')]. *)
Fixpoint last_dot (name : string) : option nat :=
  match name with
  | EmptyString => None
  | String c rest =>
      match last_dot rest with
      | Some i => Some (S i)
      | None => if Ascii.eqb c "."%char then Some O else None
      end
  end.

(** [audio_file.stem]: the name without its last suffix; a leading or a
    trailing dot starts no suffix. *)
Definition stem (name : string) : string :=
  match last_dot name with
  | Some i =>
      if ((0 <? i) && (i <? String.length name - 1))%nat
      then substring 0 i name else name
  | None => name
  end.

Definition path_of (name : string) : string := data_dir ++ "/" ++ name.

(** The statements of the [try] block up to the computation of
    [differences]. *)
Definition clip_differences (w : World) (truth_data : pyval)
  (listeners : PyDict.t Z) (audio_file song_id : string)
  : eff DifferenceRecord :=
  (n_listeners <- lift (match PyDict.get song_id listeners with
                        | Some n => Ok n
                        | None => Raise (KeyError (PStr song_id))
                        end) ;;
   pred <- analyze_audio w (path_of audio_file) n_listeners ;;
   truth <- lift (py_getitem truth_data song_id) ;;
   lift (calculate_differences truth pred))%eff.

(** The text of the progress line of a clip, its values being finite
    numbers; a missing entry is a [KeyError]. *)
Definition sample_line (differences : DifferenceRecord) : result string :=
  match PyDict.get "amazement" differences with
  | None => Raise (KeyError (PStr "amazement"))
  | Some a =>
      match PyDict.get "calmness" differences with
      | None => Raise (KeyError (PStr "calmness"))
      | Some c =>
          Ok ("  Sample diffs - amazement_mean: " ++ format_4f (diff_mean a)
              ++ ", calmness_std: " ++ format_4f (diff_std c))
      end
  end.

(** The [try]/[except Exception] of the loop body.  The assignment to
    [all_differences] precedes the progress line, so it stands even if
    that line raises. *)
Definition try_clip (w : World) (truth_data : pyval) (listeners : PyDict.t Z)
  (all_differences : CorpusResults) (audio_file song_id : string)
  : eff CorpusResults :=
  match clip_differences w truth_data listeners audio_file song_id with
  | (tr, Raise e) => ((tr ++ [EPrintExn "  Error: " e])%list, Ok all_differences)
  | (tr, Ok differences) =>
      let all_differences' := PyDict.set song_id differences all_differences in
      match sample_line differences with
      | Ok line => ((tr ++ [EPrint line])%list, Ok all_differences')
      | Raise e =>
          ((tr ++ [EPrintExn "  Error: " e])%list, Ok all_differences')
      end
  end.

(** One turn of the loop over the audio files. *)
Definition process_clip (w : World) (truth_data : pyval)
  (listeners : PyDict.t Z) (all_differences : CorpusResults)
  (audio_file : string) : eff CorpusResults :=
  let song_id := stem audio_file in
  (in_truth <- lift (py_contains song_id truth_data) ;;
   if negb in_truth || negb (PyDict.mem song_id listeners) then
     print ("Skipping " ++ song_id ++ ": no truth data or listener count") ;;;
     ret all_differences
   else
     print ("Processing " ++ song_id ++ "...") ;;;
     try_clip w truth_data listeners all_differences audio_file song_id)%eff.

Fixpoint main_loop (w : World) (truth_data : pyval) (listeners : PyDict.t Z)
  (audio_files : list string) (all_differences : CorpusResults)
  : eff CorpusResults :=
  match audio_files with
  | [] => ret all_differences
  | audio_file :: rest =>
      (all_differences' <-
         process_clip w truth_data listeners all_differences audio_file ;;
       main_loop w truth_data listeners rest all_differences')%eff
  end.

(** What follows the loop. *)
Definition save_results (all_differences : CorpusResults) : eff unit :=
  match all_differences with
  | [] => print "No results to save"
  | _ =>
      (print (nl ++ "Processed "
                 ++ str_of_Z (Z.of_nat (List.length all_differences))
                 ++ " songs") ;;;
       emit (EToCsv "table1_overall_summary.csv"
                    (create_overall_summary_table all_differences)) ;;;
       emit (EToCsv "table2_song_breakdown.csv"
                    (create_song_level_breakdown_table all_differences)))%eff
  end.

(** The first [try]: only a [FileNotFoundError] is caught, and ends the
    run. *)
Definition main (w : World) : eff unit :=
  match
    (loaded <- load_ground_truth_and_listeners w ;;
     n <- lift (py_len (fst loaded)) ;;
     print ("Loaded truth data for " ++ str_of_Z n ++ " songs") ;;;
     ret loaded)%eff
  with
  | (tr, Raise e) =>
      if is_FileNotFoundError e
      then ((tr ++ [EPrintExn "Error: " e])%list, Ok tt)
      else (tr, Raise e)
  | (tr, Ok (truth_data, listeners)) =>
      let (tr', r) :=
        (all_differences <-
           main_loop w truth_data listeners (glob_song_opus w) [] ;;
         save_results all_differences)%eff in
      ((tr ++ tr')%list, r)
  end.

(** ** A reference JSON decoder

    [json.loads] belongs to the Python standard library, and [World]
    takes it as given.  [Json.loads] is a decoder for the grammar of
    RFC 8259 as CPython reads it (duplicate keys resolved to the last
    value, control characters refused inside strings, [\u] escapes turned
    into UTF-8, surrogate pairs joined).  It serves to run the program on
    the sample texts, and agrees with CPython on texts like them: short,
    shallow, with numbers that are finite floats.  It is no model of
    CPython on the constants [NaN] and [Infinity], on a number beyond the
    range of [float], on an integer of thousands of digits or on nesting
    thousands deep; no sample text has any of these. *)

Module Json.

Definition code (c : ascii) : N := N_of_ascii c.

Definition is_ws (c : ascii) : bool :=
  let n := code c in
  ((n =? 32) || (n =? 9) || (n =? 10) || (n =? 13))%N.

Fixpoint skip_ws (s : list ascii) : list ascii :=
  match s with
  | c :: rest => if is_ws c then skip_ws rest else s
  | [] => []
  end.

Definition digit_value (c : ascii) : option N :=
  let n := code c in
  if ((48 <=? n) && (n <=? 57))%N then Some (n - 48)%N else None.

Definition hex_value (c : ascii) : option N :=
  let n := code c in
  if ((48 <=? n) && (n <=? 57))%N then Some (n - 48)%N
  else if ((65 <=? n) && (n <=? 70))%N then Some (n - 55)%N
  else if ((97 <=? n) && (n <=? 102))%N then Some (n - 87)%N
  else None.

(** A run of digits: its value continuing [acc], its length, the rest. *)
Fixpoint digits (s : list ascii) (acc : N) (count : nat)
  : N * nat * list ascii :=
  match s with
  | c :: rest =>
      match digit_value c with
      | Some d => digits rest (acc * 10 + d)%N (S count)
      | None => (acc, count, s)
      end
  | [] => (acc, count, [])
  end.

(** The integer part: a zero, or a non-zero digit and more digits. *)
Definition int_part (s : list ascii) : option (N * list ascii) :=
  match s with
  | c :: rest =>
      match digit_value c with
      | Some 0%N => Some (0%N, rest)
      | Some d => let '(v, _, rest') := digits rest d 1%nat in Some (v, rest')
      | None => None
      end
  | [] => None
  end.

(** An optional fraction after the integer part [m]: a dot and at
    least one digit; the digits are joined to [m] and counted. *)
Definition frac_part (m : N) (s : list ascii) : N * nat * list ascii :=
  match s with
  | c :: rest =>
      if (code c =? 46)%N then
        match digits rest m O with
        | (_, O, _) => (m, O, s)
        | found => found
        end
      else (m, O, s)
  | [] => (m, O, [])
  end.

(** An optional exponent: e or E, an optional sign, at least one
    digit; [None] when there is none. *)
Definition exp_part (s : list ascii) : option Z * list ascii :=
  match s with
  | c :: rest =>
      if ((code c =? 101) || (code c =? 69))%N then
        let '(negative, rest') :=
          match rest with
          | sgn :: r =>
              if (code sgn =? 45)%N then (true, r)
              else if (code sgn =? 43)%N then (false, r)
              else (false, rest)
          | [] => (false, rest)
          end in
        match digits rest' 0%N O with
        | (_, O, _) => (None, s)
        | (e, _, rest'') =>
            (Some (if negative then - Z.of_N e else Z.of_N e), rest'')
        end
      else (None, s)
  | [] => (None, [])
  end.

Definition scale (m : Z) (e : Z) : Q :=
  if 0 <=? e then Qred ((m * 10 ^ e) # 1)
  else Qred (m # Z.to_pos (10 ^ (- e))).

(** A number: an [int] when it has neither fraction nor exponent, a
    [float] otherwise. *)
Definition number (s : list ascii) : option (pyval * list ascii) :=
  let '(negative, s1) :=
    match s with
    | c :: rest => if (code c =? 45)%N then (true, rest) else (false, s)
    | [] => (false, s)
    end in
  match int_part s1 with
  | None => None
  | Some (i, s2) =>
      let '(m, nfrac, s3) := frac_part i s2 in
      let '(e, s4) := exp_part s3 in
      let mz := if negative then - Z.of_N m else Z.of_N m in
      match nfrac, e with
      | O, None => Some (PInt mz, s4)
      | _, None => Some (PNum (scale mz (- Z.of_nat nfrac)), s4)
      | _, Some x => Some (PNum (scale mz (x - Z.of_nat nfrac)), s4)
      end
  end.

Definition byte (n : N) : ascii := ascii_of_N n.

(** The UTF-8 form of a code point (surrogates included, as three
    bytes). *)
Definition utf8 (cp : N) : list ascii :=
  (if cp <? 128 then [byte cp]
   else if cp <? 2048 then [byte (192 + cp / 64); byte (128 + cp mod 64)]
   else if cp <? 65536 then
     [byte (224 + cp / 4096); byte (128 + (cp / 64) mod 64);
      byte (128 + cp mod 64)]
   else
     [byte (240 + cp / 262144); byte (128 + (cp / 4096) mod 64);
      byte (128 + (cp / 64) mod 64); byte (128 + cp mod 64)])%N.

Definition hex4 (s : list ascii) : option (N * list ascii) :=
  match s with
  | a :: b :: c :: d :: rest =>
      match hex_value a, hex_value b, hex_value c, hex_value d with
      | Some x, Some y, Some z, Some t =>
          Some (((x * 16 + y) * 16 + z) * 16 + t, rest)%N
      | _, _, _, _ => None
      end
  | _ => None
  end.

(** What follows [\u]: one code point, or two joined surrogates. *)
Definition unicode_escape (s : list ascii) : option (N * list ascii) :=
  match hex4 s with
  | None => None
  | Some (hi, rest) =>
      if ((55296 <=? hi) && (hi <=? 56319))%N then
        match rest with
        | b :: u :: rest' =>
            if ((code b =? 92) && (code u =? 117))%N then
              match hex4 rest' with
              | Some (lo, rest'') =>
                  if ((56320 <=? lo) && (lo <=? 57343))%N
                  then Some (65536 + (hi - 55296) * 1024 + (lo - 56320),
                             rest'')%N
                  else Some (hi, rest)
              | None => Some (hi, rest)
              end
            else Some (hi, rest)
        | _ => Some (hi, rest)
        end
      else Some (hi, rest)
  end.

Definition simple_escape (c : ascii) : option N :=
  let n := code c in
  (if n =? 34 then Some 34 else if n =? 92 then Some 92
   else if n =? 47 then Some 47 else if n =? 98 then Some 8
   else if n =? 102 then Some 12 else if n =? 110 then Some 10
   else if n =? 114 then Some 13 else if n =? 116 then Some 9
   else None)%N.

(** The body of a string, after its opening quote. *)
Fixpoint string_body (fuel : nat) (s : list ascii) (acc : list ascii)
  : option (string * list ascii) :=
  match fuel with
  | O => None
  | S fuel' =>
      match s with
      | [] => None
      | c :: rest =>
          let n := code c in
          if (n =? 34)%N then Some (string_of_chars (rev acc), rest)
          else if (n <? 32)%N then None
          else if (n =? 92)%N then
            match rest with
            | [] => None
            | e :: rest' =>
                if (code e =? 117)%N then
                  match unicode_escape rest' with
                  | Some (cp, rest'') =>
                      string_body fuel' rest'' (rev (utf8 cp) ++ acc)%list
                  | None => None
                  end
                else
                  match simple_escape e with
                  | Some x => string_body fuel' rest' (byte x :: acc)
                  | None => None
                  end
            end
          else string_body fuel' rest (c :: acc)
      end
  end.

Definition literal (name : string) (v : pyval) (s : list ascii)
  : option (pyval * list ascii) :=
  let n := String.length name in
  if String.eqb (string_of_chars (firstn n s)) name
  then Some (v, skipn n s) else None.

Fixpoint value (fuel : nat) (s : list ascii) : option (pyval * list ascii) :=
  match fuel with
  | O => None
  | S fuel' =>
      match s with
      | [] => None
      | c :: rest =>
          let n := code c in
          if (n =? 34)%N then
            match string_body (S (List.length rest)) rest [] with
            | Some (str, rest') => Some (PStr str, rest')
            | None => None
            end
          else if (n =? 123)%N then
            match skip_ws rest with
            | c' :: rest' =>
                if (code c' =? 125)%N then Some (PDict [], rest')
                else members fuel' (skip_ws rest) []
            | [] => None
            end
          else if (n =? 91)%N then
            match skip_ws rest with
            | c' :: rest' =>
                if (code c' =? 93)%N then Some (PList [], rest')
                else elements fuel' (skip_ws rest) []
            | [] => None
            end
          else if (n =? 116)%N then literal "true" (PBool true) s
          else if (n =? 102)%N then literal "false" (PBool false) s
          else if (n =? 110)%N then literal "null" PNone s
          else number s
      end
  end

(** The members of an object from a key on, [acc] holding the pairs
    read so far, last first. *)
with members (fuel : nat) (s : list ascii) (acc : list (string * pyval))
  : option (pyval * list ascii) :=
  match fuel with
  | O => None
  | S fuel' =>
      match s with
      | q :: rest =>
          if (code q =? 34)%N then
            match string_body (S (List.length rest)) rest [] with
            | Some (key, s1) =>
                match skip_ws s1 with
                | colon :: s2 =>
                    if (code colon =? 58)%N then
                      match value fuel' (skip_ws s2) with
                      | Some (v, s3) =>
                          match skip_ws s3 with
                          | d :: s4 =>
                              if (code d =? 125)%N then
                                Some (PDict (PyDict.of_pairs
                                               (rev ((key, v) :: acc))), s4)
                              else if (code d =? 44)%N then
                                members fuel' (skip_ws s4) ((key, v) :: acc)
                              else None
                          | [] => None
                          end
                      | None => None
                      end
                    else None
                | [] => None
                end
            | None => None
            end
          else None
      | [] => None
      end
  end

(** The elements of an array from a value on. *)
with elements (fuel : nat) (s : list ascii) (acc : list pyval)
  : option (pyval * list ascii) :=
  match fuel with
  | O => None
  | S fuel' =>
      match value fuel' s with
      | Some (v, s1) =>
          match skip_ws s1 with
          | d :: s2 =>
              if (code d =? 93)%N then Some (PList (rev (v :: acc)), s2)
              else if (code d =? 44)%N then
                elements fuel' (skip_ws s2) (v :: acc)
              else None
          | [] => None
          end
      | None => None
      end
  end.

(** A whole text: one value between optional white space. *)
Definition loads (text : string) : option pyval :=
  let s := chars text in
  match value (2 * List.length s + 2) (skip_ws s) with
  | Some (v, rest) =>
      match skip_ws rest with
      | [] => Some v
      | _ => None
      end
  | None => None
  end.

End Json.

(** The reference decoder as the [json_loads] of a sample world. *)
Definition reference_loads (text : string) : result pyval :=
  match Json.loads text with
  | Some v => Ok v
  | None => Raise JSONDecodeError
  end.

(** ** The contract of the extractor, as a relation

    [brace_span s m]: [m] runs from the first opening brace of [s] to its
    last closing brace.  [extract_outcome w s r]: [r] is what the
    extractor owes for the text [s]. *)

Fixpoint occurs (c : ascii) (s : string) : bool :=
  match s with
  | EmptyString => false
  | String c' rest => Ascii.eqb c c' || occurs c rest
  end.

Definition brace_span (s m : string) : Prop :=
  exists pre mid post,
    s = pre ++ m ++ post /\ m = "{" ++ mid ++ "}" /\
    occurs open_brace pre = false /\ occurs close_brace post = false.

Definition no_brace_span (s : string) : Prop :=
  forall pre mid post, s <> pre ++ "{" ++ mid ++ "}" ++ post.

Inductive extract_outcome (w : World) (s : string) : result pyval -> Prop :=
| Direct_parse (v : pyval) :
    json_loads w s = Ok v ->
    extract_outcome w s (Ok v)
| Direct_other_error (e : exn) :
    json_loads w s = Raise e -> e <> JSONDecodeError ->
    extract_outcome w s (Raise e)
| Span_parse (m : string) (v : pyval) :
    json_loads w s = Raise JSONDecodeError -> brace_span s m ->
    json_loads w m = Ok v ->
    extract_outcome w s (Ok v)
| Span_error (m : string) (e : exn) :
    json_loads w s = Raise JSONDecodeError -> brace_span s m ->
    json_loads w m = Raise e ->
    extract_outcome w s (Raise e)
| No_span :
    json_loads w s = Raise JSONDecodeError -> no_brace_span s ->
    extract_outcome w s (Ok (PDict [])).

(** ** The difference of the specification

    Section 4.4 on typed bundles: absolute differences where both bundles
    have the key, the penalty otherwise. *)
Definition diff_spec (truth pred : StatsBundle) (k : string) : DiffEntry :=
  match PyDict.get k truth, PyDict.get k pred with
  | Some ts, Some ps =>
      {| diff_mean := Qabs (mean ts - mean ps);
         diff_std := Qabs (std ts - std ps) |}
  | _, _ => {| diff_mean := 1; diff_std := 1 # 2 |}
  end.

(** ** The views of the specification

    Section 4.5: the flattened sequence of a field over every song, in
    the order of the corpus, and every emotion key the song's record
    holds, in canonical order; the arithmetic mean; the header and rows
    of the breakdown. *)
Definition song_values (field : DiffEntry -> Q) (song_diffs : DifferenceRecord)
  : list Q :=
  flat_map (fun k => match PyDict.get k song_diffs with
                     | Some entry => [field entry]
                     | None => []
                     end) emotions.

Definition flatten (field : DiffEntry -> Q) (all_differences : CorpusResults)
  : list Q :=
  flat_map (song_values field) (PyDict.values all_differences).

Definition arithmetic_mean (l : list Q) : Q :=
  (fold_right Qplus 0 l / inject_Z (Z.of_nat (List.length l)))%Q.

Definition mean_or_zero (l : list Q) : Q :=
  match l with
  | [] => 0%Q
  | _ => arithmetic_mean l
  end.

Definition breakdown_header : list string := "song_id" :: "metric" :: emotions.

(** [c] is one of the nine emotion keys. *)
Definition is_emotion (c : string) : bool := existsb (String.eqb c) emotions.

(** [l] is [l'] with some elements left out, the order kept. *)
Inductive subsequence {A : Type} : list A -> list A -> Prop :=
| subsequence_nil : subsequence [] []
| subsequence_skip (x : A) (l l' : list A) :
    subsequence l l' -> subsequence l (x :: l')
| subsequence_keep (x : A) (l l' : list A) :
    subsequence l l' -> subsequence (x :: l) (x :: l').

(** An event that only writes to the console: no file is opened, no
    request sent, no table written. *)
Definition is_print (ev : event) : bool :=
  match ev with
  | EPrint _ | EPrintExn _ _ => true
  | _ => false
  end.

(** ** Ranges of the data model *)

(** [mean] within [0, 1] and [std] within [0, 0.5], for every entry. *)
Definition stats_in_range (s : EmotionStats) : bool :=
  Qle_bool 0 (mean s) && Qle_bool (mean s) 1 &&
  Qle_bool 0 (std s) && Qle_bool (std s) (1 # 2).

Definition bundle_in_range (b : StatsBundle) : bool :=
  forallb (fun kv => stats_in_range (snd kv)) b.

Definition entry_in_range (e : DiffEntry) : bool :=
  Qle_bool 0 (diff_mean e) && Qle_bool (diff_mean e) 1 &&
  Qle_bool 0 (diff_std e) && Qle_bool (diff_std e) (1 # 2).

(** ** Sample data *)

Definition stats (m s : Q) : EmotionStats := {| mean := m; std := s |}.

(** A prediction outside the expected ranges. *)
Definition truth_in_range : StatsBundle := [("amazement", stats (1 # 10) (1 # 5))].
Definition pred_out_of_range : StatsBundle := [("amazement", stats (3 # 2) (9 # 10))].
Definition pred_in_range : StatsBundle :=
  [("amazement", stats (3 # 5) (1 # 10)); ("tension", stats 1 (1 # 2))].

(** A reply wrapped in prose, and a reply whose braces hold no JSON. *)
Definition wrapped_reply : string :=
  "Here is the result: {" ++ quoted "amazement" ++ ":{" ++ quoted "mean"
  ++ ":0.5," ++ quoted "std" ++ ":0.1}} Thanks!".

Definition braces_without_json : string := "{ not json }".

(** A ground-truth store for two clips, as text and decoded. *)
Definition truth_text : string :=
  "{" ++ quoted "song_1" ++ ": {" ++ quoted "amazement" ++ ": {"
  ++ quoted "mean" ++ ": 0.25, " ++ quoted "std" ++ ": 0.125}}, "
  ++ quoted "song_2" ++ ": {}}".

(** Worlds with the reference decoder and this store: one without the
    credential, one with a credential and an endpoint that always sends
    the same reply. *)
Definition reply_world (api_key : option string) (names : list string)
  (reply : Request -> result Response) : World :=
  {| json_loads := reference_loads;
     environ_get := fun name =>
       if String.eqb name "OPENROUTER_API_KEY" then api_key else None;
     truth_file := Some truth_text;
     listdir := names;
     read_bytes := fun _ => Ok "OggS";
     http_post := reply |}.

Definition truth_store : PyDict.t pyval :=
  [("song_1", PDict [("amazement",
                      PDict [("mean", PNum (1 # 4)); ("std", PNum (1 # 8))])]);
   ("song_2", PDict [])].

Definition no_key_world : World :=
  reply_world None ["song_1.opus"; "notes.txt"; "song_2.opus"]
    (fun _ => Raise (RequestException "unreachable")).

(** A directory that yields the second clip first. *)
Definition unsorted_names : list string :=
  ["song_2.opus"; "song_77.opus"; "song_1.opus"; "README.md"].

(** The body the endpoint sends for a given message content. *)
Definition chat_body (content : string) : string :=
  "{" ++ quoted "choices" ++ ": [{" ++ quoted "message" ++ ": {"
  ++ quoted "content" ++ ": " ++ content ++ "}}]}".

(** A key inside a JSON string: its quotes escaped. *)
Definition escaped (s : string) : string := "\" ++ dq ++ s ++ "\" ++ dq.

Definition amazement_reply : string :=
  quoted ("{" ++ escaped "amazement" ++ ": {" ++ escaped "mean"
          ++ ": 0.5, " ++ escaped "std" ++ ": 0.25}}").

Definition keyed_world (names : list string) : World :=
  reply_world (Some "sk-test") names
    (fun _ => Ok {| status_code := 200; text := chat_body amazement_reply |}).

(** ** Shapes the run-time typed code accepts *)

Definition is_number (v : pyval) : bool :=
  match as_number v with
  | Some _ => true
  | None => false
  end.

(** A value from which [v["mean"]] and [v["std"]] give numbers. *)
Definition stats_ok (v : pyval) : bool :=
  match v with
  | PDict d =>
      match PyDict.get "mean" d, PyDict.get "std" d with
      | Some m, Some s => is_number m && is_number s
      | _, _ => false
      end
  | _ => false
  end.

(** The key [k] is absent from one of the two dicts, or both entries
    are well formed. *)
Definition comparable (truth pred : PyDict.t pyval) (k : string) : bool :=
  match PyDict.get k truth, PyDict.get k pred with
  | Some t, Some p => stats_ok t && stats_ok p
  | _, _ => true
  end.

Definition is_to_csv (ev : event) : bool :=
  match ev with
  | EToCsv _ _ => true
  | _ => false
  end.

(** ** More sample data *)

(** An endpoint that refuses every request. *)
Definition refusing_world : World :=
  reply_world (Some "sk-test") ["song_1.opus"]
    (fun _ => Ok {| status_code := 500; text := "" |}).

(** Worlds whose ground-truth file is missing, is no JSON, or holds a
    number. *)
Definition world_with_truth (contents : option string) : World :=
  {| json_loads := reference_loads;
     environ_get := fun _ => Some "sk-test";
     truth_file := contents;
     listdir := ["song_1.opus"];
     read_bytes := fun _ => Ok "OggS";
     http_post := fun _ => Raise (RequestException "unreachable") |}.

(** A ground truth with a malformed entry, and a corpus within the
    ranges. *)
Definition malformed_truth : PyDict.t pyval := [("amazement", PStr "high")].

Definition corpus_in_range : CorpusResults :=
  [("song_1", [("amazement", {| diff_mean := 1 # 4; diff_std := 1 # 8 |});
               ("power", max_penalty)]);
   ("song_2", [("calmness", {| diff_mean := 0; diff_std := 1 # 2 |})])].

(** * Properties *)

(** ** Strings *)

Section Strings.

Lemma append_assoc (a b c : string) : (a ++ b) ++ c = a ++ (b ++ c).
Proof.
  induction a as [|x a IH]; simpl; [reflexivity | now rewrite IH].
Qed.

Lemma append_empty_r (a : string) : a ++ "" = a.
Proof.
  induction a as [|x a IH]; simpl; [reflexivity | now rewrite IH].
Qed.

Lemma prefix_append (x s : string) : prefix x (x ++ s) = true.
Proof.
  induction x as [|c x IH]; simpl.
  - now destruct s.
  - destruct (ascii_dec c c) as [_|ne]; [exact IH | now elim ne].
Qed.


Lemma prefix_split (x s : string) :
  prefix x s = true -> exists post, s = x ++ post.
Proof.
  revert s; induction x as [|c x IH]; intros s H.
  - now exists s.
  - destruct s as [|d s]; simpl in H; [discriminate|].
    destruct (ascii_dec c d) as [->|]; [|discriminate].
    destruct (IH _ H) as [post ->]. now exists post.
Qed.

Lemma is_infix_prefix (x s : string) :
  prefix x s = true -> is_infix x s = true.
Proof.
  intros H. destruct s; simpl; simpl in H; now rewrite H.
Qed.

Lemma is_infix_append_r (x a b : string) :
  is_infix x b = true -> is_infix x (a ++ b) = true.
Proof.
  intros H. induction a as [|c a IH]; simpl; [exact H|].
  rewrite IH. apply orb_true_r.
Qed.


Lemma is_infix_middle (x a b : string) : is_infix x (a ++ x ++ b) = true.
Proof.
  apply is_infix_append_r, is_infix_prefix, prefix_append.
Qed.

(** [is_infix] decides the occurrence of [x] inside [s]. *)
Lemma is_infix_spec (x s : string) :
  is_infix x s = true <-> exists pre post, s = pre ++ x ++ post.
Proof.
  split.
  - induction s as [|c s IH]; intros H.
    + simpl in H. rewrite orb_false_r in H.
      destruct x; [now exists "", "" | discriminate].
    + cbn [is_infix] in H. apply orb_true_iff in H as [H|H].
      * destruct (prefix_split _ _ H) as [post ->]. now exists "", post.
      * destruct (IH H) as (pre & post & ->). now exists (String c pre), post.
  - intros (pre & post & ->). apply is_infix_middle.
Qed.

End Strings.

(** ** PromptBuilder *)

Section PromptBuilder.





End PromptBuilder.

(** ** ResponseExtractor *)

Section Extractor.

Lemma occurs_append (c : ascii) (a b : string) :
  occurs c (a ++ b) = occurs c a || occurs c b.
Proof.
  induction a as [|x a IH]; simpl; [reflexivity|].
  now rewrite IH, orb_assoc.
Qed.

Lemma occurs_close_after (a b : string) :
  occurs close_brace (a ++ String close_brace b) = true.
Proof.
  rewrite occurs_append. cbn [occurs].
  now rewrite Ascii.eqb_refl, orb_true_r.
Qed.

Lemma upto_last_close_none (s : string) :
  upto_last_close s = None <-> occurs close_brace s = false.
Proof.
  induction s as [|c s IH]; cbn [upto_last_close occurs]; [tauto|].
  rewrite (Ascii.eqb_sym close_brace c).
  destruct (upto_last_close s) as [m|].
  - split; [discriminate|]. intros H.
    apply orb_false_iff in H as [_ H]. apply IH in H. discriminate.
  - destruct IH as [IH _]. rewrite (IH eq_refl), orb_false_r.
    destruct (Ascii.eqb c close_brace); split; congruence.
Qed.

(** The greedy part stops at the last closing brace. *)
Lemma upto_last_close_greedy (a post : string) :
  occurs close_brace post = false ->
  upto_last_close (a ++ "}" ++ post) = Some (a ++ "}").
Proof.
  intros H. induction a as [|c a IH]; simpl.
  - apply upto_last_close_none in H. now rewrite H.
  - simpl in IH. now rewrite IH.
Qed.

Lemma upto_last_close_some (s m : string) :
  upto_last_close s = Some m ->
  exists mid post,
    s = m ++ post /\ m = mid ++ "}" /\ occurs close_brace post = false.
Proof.
  revert m; induction s as [|c s IH]; intros m H; simpl in H; [discriminate|].
  destruct (upto_last_close s) as [m'|] eqn:E.
  - injection H as <-.
    destruct (IH _ eq_refl) as (mid & post & -> & -> & Hp).
    now exists (String c mid), post.
  - destruct (Ascii.eqb_spec c close_brace) as [->|]; [|discriminate].
    injection H as <-. exists "", s. repeat split.
    now apply upto_last_close_none.
Qed.

Lemma re_search_braces_span (s m : string) :
  re_search_braces s = Some m <-> brace_span s m.
Proof.
  split.
  - revert m; induction s as [|c s IH]; intros m H; simpl in H;
      [discriminate|].
    destruct (Ascii.eqb_spec c open_brace) as [->|ne].
    + destruct (upto_last_close s) as [m'|] eqn:E; [|discriminate].
      injection H as <-.
      destruct (upto_last_close_some _ _ E) as (mid & post & -> & -> & Hp).
      now exists "", mid, post.
    + destruct (IH _ H) as (pre & mid & post & -> & -> & Hpre & Hpost).
      exists (String c pre), mid, post. repeat split; trivial.
      cbn [occurs]. rewrite Hpre, orb_false_r.
      rewrite Ascii.eqb_sym. now apply Ascii.eqb_neq.
  - intros (pre & mid & post & -> & -> & Hpre & Hpost).
    induction pre as [|c pre IH].
    + cbn [append re_search_braces]. rewrite Ascii.eqb_refl.
      rewrite append_assoc.
      now rewrite (upto_last_close_greedy mid post Hpost).
    + cbn [occurs] in Hpre. apply orb_false_iff in Hpre as [Hc Hpre].
      cbn [append re_search_braces].
      rewrite Ascii.eqb_sym, Hc. now apply IH.
Qed.

Lemma re_search_braces_none (s : string) :
  re_search_braces s = None <-> no_brace_span s.
Proof.
  split.
  - induction s as [|c s IH]; intros H pre mid post E.
    + destruct pre; discriminate.
    + simpl in H. destruct (Ascii.eqb_spec c open_brace) as [->|ne].
      * destruct (upto_last_close s) eqn:U; [discriminate|].
        apply upto_last_close_none in U.
        assert (occurs close_brace s = true) as Hs; [|congruence].
        destruct pre as [|x pre]; cbn [append] in E.
        -- injection E as ->. apply occurs_close_after.
        -- injection E as _ ->.
           rewrite occurs_append. cbn [occurs].
           change (String "}" post) with (String close_brace post).
           now rewrite occurs_close_after, !orb_true_r.
      * destruct pre as [|x pre]; cbn [append] in E.
        -- injection E as -> _. now elim ne.
        -- injection E as _ ->. now apply (IH H pre mid post).
  - intros H. destruct (re_search_braces s) as [m|] eqn:E; [|reflexivity].
    apply re_search_braces_span in E
      as (pre & mid & post & -> & -> & _ & _).
    elim (H pre mid post). now rewrite !append_assoc.
Qed.

(** C2, as the code has it.  For every decoder and every response text:
    a text that decodes is returned decoded; when the decoder raises a
    [JSONDecodeError] the span from the first opening brace to the last
    closing brace is decoded and returned, and what this second decoding
    raises is raised; only a text that raises a [JSONDecodeError] and has
    no such span yields the empty bundle.  Any other exception of the
    first decoding (a [RecursionError], a plain [ValueError]) is not
    caught and leaves the extractor as it is. *)
Theorem extract_meets_contract (w : World) (s : string) :
  extract_outcome w s (extract w (PStr s)).
Proof.
  unfold extract, py_json_loads.
  destruct (json_loads w s) as [v|e] eqn:D; [now apply Direct_parse|].
  destruct e;
    try (apply Direct_other_error; [assumption | discriminate]).
  destruct (re_search_braces s) as [m|] eqn:R.
  - apply re_search_braces_span in R.
    destruct (json_loads w m) as [v|e] eqn:D'.
    + now apply Span_parse with m.
    + now apply Span_error with m.
  - apply No_span; [assumption|]. now apply re_search_braces_none.
Qed.

(** The span is unique, so the contract fixes the result. *)
Lemma brace_span_unique (s m m' : string) :
  brace_span s m -> brace_span s m' -> m = m'.
Proof.
  intros H H'. apply re_search_braces_span in H, H'. congruence.
Qed.

Lemma extract_outcome_unique (w : World) (s : string) (r r' : result pyval) :
  extract_outcome w s r -> extract_outcome w s r' -> r = r'.
Proof.
  assert (clash : forall m, brace_span s m -> no_brace_span s -> False).
  { intros m (pre & mid & post & E & -> & _) N.
    elim (N pre mid post). now rewrite E, !append_assoc. }
  assert (same : forall m m', brace_span s m -> brace_span s m' ->
                              json_loads w m = json_loads w m').
  { intros m m' A B. now rewrite (brace_span_unique _ _ _ A B). }
  intros H H'; destruct H, H'; try congruence;
    try (exfalso; eapply clash; eassumption);
    match goal with
    | A : brace_span s ?a, B : brace_span s ?b |- _ =>
        pose proof (same _ _ A B); congruence
    end.
Qed.

(** The fallback example of the specification: prose around one JSON
    object. *)
Example extract_wrapped_reply :
  extract no_key_world (PStr wrapped_reply)
  = Ok (PDict [("amazement",
                PDict [("mean", PNum (1 # 2)); ("std", PNum (1 # 10))])]).
Proof. vm_compute. reflexivity. Qed.

(** C2 as stated fails: a text whose braces hold no JSON decodes neither
    directly nor through its span, and the extractor raises instead of
    returning the empty bundle. *)
Lemma extract_unparsable_span_raises :
  json_loads no_key_world braces_without_json = Raise JSONDecodeError /\
  brace_span braces_without_json braces_without_json /\
  extract no_key_world (PStr braces_without_json) = Raise JSONDecodeError /\
  extract no_key_world (PStr braces_without_json) <> Ok (PDict []).
Proof.
  split; [reflexivity|]. split.
  - apply re_search_braces_span. reflexivity.
  - split; [reflexivity | discriminate].
Qed.

End Extractor.

(** ** DifferenceCalculator *)

Section DifferenceCalculator.

Lemma get_map_values {A B} (f : A -> B) (k : string) (d : PyDict.t A) :
  PyDict.get k (map (fun kv => (fst kv, f (snd kv))) d)
  = option_map f (PyDict.get k d).
Proof.
  induction d as [|[k' v] d IH]; simpl; [reflexivity|].
  now destruct (String.eqb k k').
Qed.

Lemma get_some_in {A} (k : string) (d : PyDict.t A) (v : A) :
  PyDict.get k d = Some v -> In (k, v) d.
Proof.
  induction d as [|[k' v'] d IH]; simpl; [discriminate|].
  destruct (String.eqb_spec k k') as [->|].
  - intros [= ->]. now left.
  - intros H. right. now apply IH.
Qed.

Lemma py_contains_bundle (k : string) (b : StatsBundle) :
  py_contains k (py_of_bundle b) = Ok (PyDict.mem k b).
Proof.
  unfold py_contains, py_of_bundle, PyDict.mem.
  rewrite get_map_values. now destruct (PyDict.get k b).
Qed.

Lemma py_getitem_bundle (k : string) (b : StatsBundle) :
  py_getitem (py_of_bundle b) k
  = match PyDict.get k b with
    | Some s => Ok (py_of_stats s)
    | None => Raise (KeyError (PStr k))
    end.
Proof.
  unfold py_getitem, py_of_bundle.
  rewrite get_map_values. now destruct (PyDict.get k b).
Qed.

(** On typed bundles one turn of the loop never raises and yields the
    entry of the specification. *)
Lemma emotion_difference_bundle (truth pred : StatsBundle) (k : string) :
  emotion_difference (py_of_bundle truth) (py_of_bundle pred) k
  = Ok (diff_spec truth pred k).
Proof.
  unfold emotion_difference, diff_spec.
  rewrite !py_contains_bundle, !py_getitem_bundle. unfold PyDict.mem.
  destruct (PyDict.get k truth) as [ts|]; [|reflexivity].
  destruct (PyDict.get k pred) as [ps|]; reflexivity.
Qed.

(** The record of two typed bundles, key by key in canonical order. *)
Lemma calculate_differences_bundles (truth pred : StatsBundle) :
  calculate_differences (py_of_bundle truth) (py_of_bundle pred)
  = Ok (map (fun k => (k, diff_spec truth pred k)) emotions).
Proof.
  unfold calculate_differences, emotions.
  repeat (cbn [calculate_differences_loop rbind];
          rewrite emotion_difference_bundle).
  cbn [calculate_differences_loop rbind].
  generalize (diff_spec truth pred). intros f. reflexivity.
Qed.

(** Whatever the two values are, a record that is returned has the nine
    keys, in canonical order. *)
Lemma calculate_differences_keys (truth pred : pyval) (r : DifferenceRecord) :
  calculate_differences truth pred = Ok r -> PyDict.keys r = emotions.
Proof.
  unfold calculate_differences, emotions.
  cbn [calculate_differences_loop].
  repeat (destruct (emotion_difference truth pred _);
          cbn [rbind]; [|discriminate]).
  intros [= <-]. reflexivity.
Qed.

Lemma get_diff_spec (truth pred : StatsBundle) :
  Forall (fun k =>
            PyDict.get k (map (fun k => (k, diff_spec truth pred k)) emotions)
            = Some (diff_spec truth pred k)) emotions.
Proof.
  generalize (diff_spec truth pred). intros f.
  repeat constructor.
Qed.

(** C4. For every pair of bundles the record exists, and under each of
    the nine keys it holds the absolute differences of the means and of
    the deviations when both bundles have the key, and exactly
    [1.0] and [0.5] when either lacks it. *)
Theorem calculate_differences_per_key (truth pred : StatsBundle) :
  exists r : DifferenceRecord,
    calculate_differences (py_of_bundle truth) (py_of_bundle pred) = Ok r /\
    Forall (fun k =>
              PyDict.get k r
              = Some match PyDict.get k truth, PyDict.get k pred with
                     | Some ts, Some ps =>
                         {| diff_mean := Qabs (mean ts - mean ps);
                            diff_std := Qabs (std ts - std ps) |}
                     | _, _ => {| diff_mean := 1; diff_std := 1 # 2 |}
                     end) emotions.
Proof.
  eexists. split; [apply calculate_differences_bundles|].
  exact (get_diff_spec truth pred).
Qed.

Lemma Qabs_diff_bounded (a b u : Q) :
  (0 <= a)%Q -> (a <= u)%Q -> (0 <= b)%Q -> (b <= u)%Q ->
  (Qabs (a - b) <= u)%Q.
Proof.
  intros. apply Qabs_Qle_condition. split; lra.
Qed.

Lemma stats_in_range_spec (s : EmotionStats) :
  stats_in_range s = true ->
  (0 <= mean s)%Q /\ (mean s <= 1)%Q /\
  (0 <= std s)%Q /\ (std s <= 1 # 2)%Q.
Proof.
  unfold stats_in_range. rewrite !andb_true_iff, !Qle_bool_iff. tauto.
Qed.

Lemma bundle_get_in_range (b : StatsBundle) (k : string) (s : EmotionStats) :
  bundle_in_range b = true -> PyDict.get k b = Some s ->
  stats_in_range s = true.
Proof.
  intros Hb Hk. unfold bundle_in_range in Hb.
  rewrite forallb_forall in Hb.
  exact (Hb _ (get_some_in _ _ _ Hk)).
Qed.

Lemma diff_spec_in_range (truth pred : StatsBundle) (k : string) :
  bundle_in_range truth = true -> bundle_in_range pred = true ->
  entry_in_range (diff_spec truth pred k) = true.
Proof.
  intros Ht Hp. unfold diff_spec.
  destruct (PyDict.get k truth) as [ts|] eqn:Et; [|reflexivity].
  destruct (PyDict.get k pred) as [ps|] eqn:Ep; [|reflexivity].
  destruct (stats_in_range_spec _ (bundle_get_in_range _ _ _ Ht Et))
    as (? & ? & ? & ?).
  destruct (stats_in_range_spec _ (bundle_get_in_range _ _ _ Hp Ep))
    as (? & ? & ? & ?).
  unfold entry_in_range. cbn [diff_mean diff_std].
  rewrite !andb_true_iff, !Qle_bool_iff.
  repeat split;
    solve [apply Qabs_nonneg | now apply Qabs_diff_bounded].
Qed.

(** The differences are never negative, whatever the bundles hold. *)
Lemma diff_spec_nonneg (truth pred : StatsBundle) (k : string) :
  (0 <= diff_mean (diff_spec truth pred k))%Q /\
  (0 <= diff_std (diff_spec truth pred k))%Q.
Proof.
  unfold diff_spec.
  destruct (PyDict.get k truth); [|split; discriminate].
  destruct (PyDict.get k pred); [|split; discriminate].
  split; apply Qabs_nonneg.
Qed.

(** C3, as the code has it.  When every mean of the two bundles lies in
    [0, 1] and every deviation in [0, 0.5], every entry of the record
    has [diff_mean] in [0, 1] and [diff_std] in [0, 0.5]. *)
Theorem differences_bounded_in_range (truth pred : StatsBundle) :
  bundle_in_range truth = true -> bundle_in_range pred = true ->
  exists r : DifferenceRecord,
    calculate_differences (py_of_bundle truth) (py_of_bundle pred) = Ok r /\
    forallb (fun kv => entry_in_range (snd kv)) r = true.
Proof.
  intros Ht Hp. eexists. split; [apply calculate_differences_bundles|].
  apply forallb_forall. intros [k e] Hin.
  apply in_map_iff in Hin as (k' & [= <- <-] & _).
  now apply diff_spec_in_range.
Qed.

Lemma differences_bounded_in_range_witness :
  exists r : DifferenceRecord,
    calculate_differences (py_of_bundle truth_in_range)
                          (py_of_bundle pred_in_range) = Ok r /\
    forallb (fun kv => entry_in_range (snd kv)) r = true.
Proof.
  apply (differences_bounded_in_range truth_in_range pred_in_range);
    reflexivity.
Defined.

(** C3 as stated fails: nothing clamps the statistics, and a prediction
    outside the expected ranges gives differences above both bounds. *)
Lemma differences_exceed_bounds :
  exists (r : DifferenceRecord) (e : DiffEntry),
    calculate_differences (py_of_bundle truth_in_range)
                          (py_of_bundle pred_out_of_range) = Ok r /\
    PyDict.get "amazement" r = Some e /\
    ~ (diff_mean e <= 1)%Q /\ ~ (diff_std e <= 1 # 2)%Q.
Proof.
  eexists. eexists. split; [reflexivity|]. split; [reflexivity|].
  split; intros H; apply Qle_bool_iff in H; discriminate.
Qed.

End DifferenceCalculator.

(** ** Number formatting *)

Section Formatting.

Lemma round_half_even_compat (q q' : Q) :
  (q == q')%Q -> round_half_even q = round_half_even q'.
Proof.
  intros H. unfold round_half_even.
  assert (Qfloor q = Qfloor q') as <- by now apply Qfloor_comp.
  assert ((q - inject_Z (Qfloor q) ?= 1 # 2)%Q
          = (q' - inject_Z (Qfloor q) ?= 1 # 2)%Q) as <-; [|reflexivity].
  generalize (Qfloor q). intros f. now rewrite H.
Qed.

(** The text depends on the value alone, not on the fraction that
    denotes it. *)
Lemma format_4f_compat (x y : Q) : (x == y)%Q -> format_4f x = format_4f y.
Proof.
  intros H. unfold format_4f.
  rewrite (round_half_even_compat (Qabs x * 10000) (Qabs y * 10000))
    by now rewrite H.
  destruct (Qlt_le_dec x 0), (Qlt_le_dec y 0); try reflexivity; lra.
Qed.

Lemma format_4f_has_point (x : Q) : occurs "."%char (format_4f x) = true.
Proof.
  unfold format_4f. rewrite !occurs_append. cbn [occurs].
  rewrite Ascii.eqb_refl. now rewrite !orb_true_r.
Qed.

(** A formatted number is never the sentinel. *)
Lemma format_4f_not_sentinel (x : Q) : format_4f x <> "N/A".
Proof.
  intros H. pose proof (format_4f_has_point x) as P.
  rewrite H in P. discriminate.
Qed.

End Formatting.

(** ** Aggregator: the overall summary *)

Section OverallSummary.

Lemma collect_song_flat (song_diffs : DifferenceRecord) (keys : list string)
  (a b : list Q) :
  fold_left
    (fun acc emotion =>
       match PyDict.get emotion song_diffs with
       | Some entry =>
           ((fst acc ++ [diff_mean entry])%list,
            (snd acc ++ [diff_std entry])%list)
       | None => acc
       end) keys (a, b)
  = ((a ++ flat_map (fun k => match PyDict.get k song_diffs with
                              | Some entry => [diff_mean entry]
                              | None => []
                              end) keys)%list,
     (b ++ flat_map (fun k => match PyDict.get k song_diffs with
                              | Some entry => [diff_std entry]
                              | None => []
                              end) keys)%list).
Proof.
  revert a b. induction keys as [|k keys IH]; intros a b; cbn [fold_left flat_map].
  - now rewrite !app_nil_r.
  - destruct (PyDict.get k song_diffs) as [e|]; rewrite IH; cbn [fst snd].
    + now rewrite <- !app_assoc.
    + reflexivity.
Qed.

Lemma collect_all_from (songs : list DifferenceRecord) (a b : list Q) :
  fold_left (fun acc song_diffs => collect_song song_diffs acc) songs (a, b)
  = ((a ++ flat_map (song_values diff_mean) songs)%list,
     (b ++ flat_map (song_values diff_std) songs)%list).
Proof.
  revert a b. induction songs as [|r songs IH]; intros a b;
    cbn [fold_left flat_map].
  - now rewrite !app_nil_r.
  - unfold collect_song at 2. rewrite collect_song_flat, IH.
    unfold song_values. now rewrite <- !app_assoc.
Qed.

(** The two loops build the flattened sequences of the specification. *)
Lemma collect_all_flat (all_differences : CorpusResults) :
  collect_all all_differences
  = (flatten diff_mean all_differences, flatten diff_std all_differences).
Proof.
  unfold collect_all. now rewrite collect_all_from.
Qed.

Lemma fold_left_Qplus (l : list Q) (a : Q) :
  (fold_left Qplus l a == a + fold_right Qplus 0 l)%Q.
Proof.
  revert a. induction l as [|x l IH]; intros a; cbn [fold_left fold_right].
  - ring.
  - rewrite IH. ring.
Qed.

Lemma average_is_mean (l : list Q) : (average l == mean_or_zero l)%Q.
Proof.
  destruct l as [|x l]; [reflexivity|].
  unfold average, mean_or_zero, arithmetic_mean, py_sum.
  rewrite fold_left_Qplus. now rewrite Qplus_0_l.
Qed.

(** On a corpus whose records have exactly the nine keys the flattened
    sequence is every value of every record. *)
Lemma song_values_all_keys (field : DiffEntry -> Q) (r : DifferenceRecord) :
  PyDict.keys r = emotions ->
  song_values field r = map field (PyDict.values r).
Proof.
  unfold PyDict.keys, emotions. intros H.
  do 9 (destruct r as [|[? ?] r]; [discriminate|];
        cbn [map fst] in H; injection H as -> H).
  destruct r; [reflexivity | discriminate].
Qed.

Lemma flatten_all_keys (field : DiffEntry -> Q)
  (all_differences : CorpusResults) :
  Forall (fun r => PyDict.keys r = emotions) (PyDict.values all_differences) ->
  flatten field all_differences
  = flat_map (fun r => map field (PyDict.values r))
             (PyDict.values all_differences).
Proof.
  unfold flatten. induction 1 as [|r rs Hr _ IH]; [reflexivity|].
  cbn [flat_map]. now rewrite IH, (song_values_all_keys field r Hr).
Qed.

(** C5. The two accumulated lists are the flattened sequences of every
    (song, emotion) pair, the reported values are the formatted
    arithmetic means of these sequences, and an empty corpus reports
    zero for both: the division is never reached with an empty list.
    When every record has the nine keys, as every record of a run has,
    the sequences hold every value of every record. *)
Theorem overall_summary_is_mean (all_differences : CorpusResults) :
  collect_all all_differences
  = (flatten diff_mean all_differences, flatten diff_std all_differences) /\
  (avg_mean_diff all_differences
   == mean_or_zero (flatten diff_mean all_differences))%Q /\
  (avg_std_diff all_differences
   == mean_or_zero (flatten diff_std all_differences))%Q /\
  create_overall_summary_table all_differences
  = {| columns := ["Metric"; "Value"];
       rows :=
         [[CStr "Average Difference in Mean";
           CStr (format_4f
                   (mean_or_zero (flatten diff_mean all_differences)))];
          [CStr "Average Difference in Std";
           CStr (format_4f
                   (mean_or_zero (flatten diff_std all_differences)))]] |} /\
  avg_mean_diff [] = 0%Q /\ avg_std_diff [] = 0%Q /\
  create_overall_summary_table []
  = {| columns := ["Metric"; "Value"];
       rows := [[CStr "Average Difference in Mean"; CStr "0.0000"];
                [CStr "Average Difference in Std"; CStr "0.0000"]] |} /\
  (Forall (fun r => PyDict.keys r = emotions)
          (PyDict.values all_differences) ->
   forall field : DiffEntry -> Q,
     flatten field all_differences
     = flat_map (fun r => map field (PyDict.values r))
                (PyDict.values all_differences)).
Proof.
  assert (Hm : (avg_mean_diff all_differences
                == mean_or_zero (flatten diff_mean all_differences))%Q).
  { unfold avg_mean_diff. rewrite collect_all_flat. apply average_is_mean. }
  assert (Hs : (avg_std_diff all_differences
                == mean_or_zero (flatten diff_std all_differences))%Q).
  { unfold avg_std_diff. rewrite collect_all_flat. apply average_is_mean. }
  repeat split; try assumption; try reflexivity.
  - apply collect_all_flat.
  - unfold create_overall_summary_table, DataFrame_of_columns.
    cbn. now rewrite (format_4f_compat _ _ Hm), (format_4f_compat _ _ Hs).
  - intros complete field. now apply flatten_all_keys.
Qed.

End OverallSummary.

(** ** Aggregator: the song-level breakdown *)

Section Breakdown.

Lemma breakdown_rows_from (items : list (string * DifferenceRecord))
  (rows0 : list (PyDict.t string)) :
  fold_left
    (fun rows item =>
       let mean_row := metric_row (fst item) (snd item) "diff_mean" diff_mean in
       let std_row := metric_row (fst item) (snd item) "diff_std" diff_std in
       ((rows ++ [mean_row]) ++ [std_row])%list)
    items rows0
  = (rows0 ++ flat_map
       (fun item =>
          [metric_row (fst item) (snd item) "diff_mean" diff_mean;
           metric_row (fst item) (snd item) "diff_std" diff_std]) items)%list.
Proof.
  revert rows0. induction items as [|item items IH]; intros rows0;
    cbn [fold_left flat_map].
  - now rewrite app_nil_r.
  - rewrite IH. now rewrite <- !app_assoc.
Qed.

Lemma metric_row_keys (song_id : string) (r : DifferenceRecord)
  (metric : string) (field : DiffEntry -> Q) :
  PyDict.keys (metric_row song_id r metric field) = breakdown_header.
Proof.
  unfold metric_row. generalize (emotion_cell r field). intros g.
  reflexivity.
Qed.

Lemma metric_row_cells (song_id : string) (r : DifferenceRecord)
  (metric : string) (field : DiffEntry -> Q) :
  map (fun c => match PyDict.get c (metric_row song_id r metric field) with
                | Some s => CStr s
                | None => CNaN
                end) breakdown_header
  = CStr song_id :: CStr metric
      :: map (fun k => CStr (emotion_cell r field k)) emotions.
Proof.
  unfold metric_row. generalize (emotion_cell r field). intros g.
  reflexivity.
Qed.

Lemma existsb_eqb_in (k : string) (cols : list string) :
  In k cols -> existsb (String.eqb k) cols = true.
Proof.
  intros H. apply existsb_exists. exists k. split; [exact H|].
  apply String.eqb_refl.
Qed.

Lemma add_columns_present (ks cols : list string) :
  incl ks cols -> fold_left add_column ks cols = cols.
Proof.
  induction ks as [|k ks IH]; intros H; cbn [fold_left]; [reflexivity|].
  unfold add_column at 2.
  rewrite existsb_eqb_in by (apply H; now left).
  apply IH. intros x Hx. apply H. now right.
Qed.

Lemma record_columns_present (records : list (PyDict.t string))
  (cols : list string) :
  Forall (fun record => PyDict.keys record = cols) records ->
  fold_left (fun cols record => fold_left add_column (PyDict.keys record) cols)
            records cols = cols.
Proof.
  induction 1 as [|record records Hk _ IH]; cbn [fold_left]; [reflexivity|].
  rewrite Hk, add_columns_present by apply incl_refl. exact IH.
Qed.

(** The columns of a frame of records that all have the keys of the
    header: none without a record, the header otherwise. *)
Lemma record_columns_header (records : list (PyDict.t string)) :
  Forall (fun record => PyDict.keys record = breakdown_header) records ->
  record_columns records
  = match records with [] => [] | _ => breakdown_header end.
Proof.
  intros H. destruct records as [|record records]; [reflexivity|].
  inversion_clear H as [|? ? Hk Hrest].
  unfold record_columns. cbn [fold_left]. rewrite Hk.
  change (fold_left add_column breakdown_header []) with breakdown_header.
  now apply record_columns_present.
Qed.

Lemma breakdown_rows_keys (all_differences : CorpusResults) :
  Forall (fun record => PyDict.keys record = breakdown_header)
         (breakdown_rows all_differences).
Proof.
  unfold breakdown_rows, PyDict.items. rewrite breakdown_rows_from.
  cbn [app]. induction all_differences as [|item items IH]; cbn [flat_map].
  - constructor.
  - repeat (constructor; [apply metric_row_keys|]). exact IH.
Qed.

Lemma breakdown_cells (items : list (string * DifferenceRecord)) :
  map (fun record =>
         map (fun c => match PyDict.get c record with
                       | Some s => CStr s
                       | None => CNaN
                       end) breakdown_header)
      (flat_map
         (fun item =>
            [metric_row (fst item) (snd item) "diff_mean" diff_mean;
             metric_row (fst item) (snd item) "diff_std" diff_std]) items)
  = flat_map
      (fun item =>
         [CStr (fst item) :: CStr "diff_mean"
            :: map (fun k => CStr (emotion_cell (snd item) diff_mean k))
                   emotions;
          CStr (fst item) :: CStr "diff_std"
            :: map (fun k => CStr (emotion_cell (snd item) diff_std k))
                   emotions]) items.
Proof.
  induction items as [|item items IH]; [reflexivity|].
  cbn [flat_map app map]. rewrite !metric_row_cells. now rewrite IH.
Qed.

(** The table, written out. *)
Lemma breakdown_table_eq (all_differences : CorpusResults) :
  create_song_level_breakdown_table all_differences
  = {| columns := match all_differences with
                  | [] => []
                  | _ => breakdown_header
                  end;
       rows := flat_map
                 (fun item =>
                    [CStr (fst item) :: CStr "diff_mean"
                       :: map (fun k => CStr (emotion_cell (snd item) diff_mean k))
                              emotions;
                     CStr (fst item) :: CStr "diff_std"
                       :: map (fun k => CStr (emotion_cell (snd item) diff_std k))
                              emotions])
                 all_differences |}.
Proof.
  unfold create_song_level_breakdown_table, DataFrame_of_records.
  rewrite (record_columns_header _ (breakdown_rows_keys all_differences)).
  unfold breakdown_rows, PyDict.items. rewrite breakdown_rows_from.
  cbn [app].
  destruct all_differences as [|item items]; [reflexivity|].
  f_equal. exact (breakdown_cells (item :: items)).
Qed.

(** C6, as the code has it.  Two rows per clip, tagged [diff_mean] and
    [diff_std], so twice as many rows as clips; in each row one cell per
    emotion, the value with four decimals or [N/A] when the record lacks
    the key; and the 2 + 9 columns for every corpus that is not empty.
    The frame of an empty corpus has no column. *)
Theorem breakdown_table_shape (all_differences : CorpusResults) :
  rows (create_song_level_breakdown_table all_differences)
  = flat_map
      (fun item =>
         [CStr (fst item) :: CStr "diff_mean"
            :: map (fun k => match PyDict.get k (snd item) with
                             | Some entry => CStr (format_4f (diff_mean entry))
                             | None => CStr "N/A"
                             end) emotions;
          CStr (fst item) :: CStr "diff_std"
            :: map (fun k => match PyDict.get k (snd item) with
                             | Some entry => CStr (format_4f (diff_std entry))
                             | None => CStr "N/A"
                             end) emotions])
      all_differences /\
  List.length (rows (create_song_level_breakdown_table all_differences))
  = (2 * List.length all_differences)%nat /\
  columns (create_song_level_breakdown_table all_differences)
  = match all_differences with
    | [] => []
    | _ => "song_id" :: "metric" :: emotions
    end /\
  List.length (columns (create_song_level_breakdown_table all_differences))
  = match all_differences with
    | [] => 0%nat
    | _ => (2 + 9)%nat
    end.
Proof.
  rewrite breakdown_table_eq. cbn [rows columns]. repeat split.
  - apply flat_map_ext. intros [song_id r]. cbn [fst snd].
    unfold emotion_cell, emotions. cbn [map].
    repeat match goal with
           | |- context [PyDict.get ?k r] => destruct (PyDict.get k r)
           end; reflexivity.
  - induction all_differences as [|item items IH]; [reflexivity|].
    cbn [flat_map app List.length]. rewrite IH. lia.
  - now destruct all_differences.
Qed.

(** C6 as stated fails on the empty corpus: no record, no column. *)
Lemma breakdown_of_empty_corpus_has_no_column :
  columns (create_song_level_breakdown_table []) = [] /\
  List.length (columns (create_song_level_breakdown_table [])) <> (2 + 9)%nat /\
  List.length (rows (create_song_level_breakdown_table [])) = (2 * 0)%nat.
Proof.
  repeat split. discriminate.
Qed.

(** C10. For every pair of bundles, empty and partial ones included, the
    record has exactly the nine canonical keys, in canonical order; so
    every emotion cell of a breakdown row made from it is a formatted
    number, never the sentinel.  Values of any other shape either make
    the function raise or give a record with the same nine keys. *)
Theorem calculate_differences_has_all_keys (truth pred : StatsBundle) :
  exists r : DifferenceRecord,
    calculate_differences (py_of_bundle truth) (py_of_bundle pred) = Ok r /\
    PyDict.keys r = emotions /\
    List.length r = 9%nat /\
    (forall (song_id metric : string) (field : DiffEntry -> Q),
        Forall (fun k =>
                  exists entry : DiffEntry,
                    PyDict.get k r = Some entry /\
                    PyDict.get k (metric_row song_id r metric field)
                    = Some (format_4f (field entry)) /\
                    PyDict.get k (metric_row song_id r metric field)
                    <> Some "N/A") emotions) /\
    (forall (t p : pyval) (r' : DifferenceRecord),
        calculate_differences t p = Ok r' -> PyDict.keys r' = emotions).
Proof.
  eexists. split; [apply calculate_differences_bundles|].
  split; [reflexivity|]. split; [reflexivity|].
  split; [|exact calculate_differences_keys].
  intros song_id metric field.
  generalize (diff_spec truth pred). intros f.
  assert (cell : forall k,
             In k emotions ->
             exists entry,
               PyDict.get k (map (fun k => (k, f k)) emotions) = Some entry /\
               PyDict.get k (metric_row song_id (map (fun k => (k, f k)) emotions)
                                        metric field)
               = Some (format_4f (field entry))).
  { intros k Hk. exists (f k).
    cbn [In emotions] in Hk.
    repeat (destruct Hk as [<-|Hk]; [split; reflexivity|]).
    contradiction. }
  apply Forall_forall. intros k Hk.
  destruct (cell k Hk) as (entry & Hg & Hc).
  exists entry. repeat split; trivial.
  rewrite Hc. intros [= Hbad]. now apply format_4f_not_sentinel in Hbad.
Qed.

End Breakdown.

(** ** Orchestrator *)

Section Orchestrator.

Lemma mem_get {V} (k : string) (d : PyDict.t V) :
  PyDict.mem k d = true -> exists v, PyDict.get k d = Some v.
Proof.
  unfold PyDict.mem. destruct (PyDict.get k d) as [v|]; [|discriminate].
  now exists v.
Qed.

Lemma mem_set {V} (k k' : string) (v : V) (d : PyDict.t V) :
  PyDict.mem k (PyDict.set k' v d) = String.eqb k k' || PyDict.mem k d.
Proof.
  unfold PyDict.mem.
  induction d as [|[k0 v0] d IH]; cbn [PyDict.set PyDict.get].
  - now destruct (String.eqb k k').
  - destruct (String.eqb_spec k' k0) as [->|ne]; cbn [PyDict.get].
    + destruct (String.eqb k k0); reflexivity.
    + destruct (String.eqb_spec k k0) as [->|ne'].
      * now rewrite orb_true_r.
      * exact IH.
Qed.

(** An assignment leaves the order of the keys alone and puts a new key
    last. *)
Lemma keys_set {V} (k : string) (v : V) (d : PyDict.t V) :
  PyDict.keys (PyDict.set k v d)
  = if PyDict.mem k d then PyDict.keys d else (PyDict.keys d ++ [k])%list.
Proof.
  unfold PyDict.mem, PyDict.keys.
  induction d as [|[k0 v0] d IH]; cbn [PyDict.set PyDict.get map fst app];
    [reflexivity|].
  destruct (String.eqb k k0); cbn [map fst]; [reflexivity|].
  rewrite IH. now destruct (PyDict.get k d).
Qed.

Lemma bind_ok_inv {A B} (m : eff A) (k : A -> eff B) (tr : list event) (b : B) :
  bind m k = (tr, Ok b) ->
  exists tr1 a tr2,
    m = (tr1, Ok a) /\ k a = (tr2, Ok b) /\ tr = (tr1 ++ tr2)%list.
Proof.
  destruct m as [tr1 [a|e]]; cbn [bind]; [|discriminate].
  destruct (k a) as [tr2 r] eqn:E. intros [= <- ->].
  now exists tr1, a, tr2.
Qed.

(** Without the credential every call fails before any file or network
    access. *)
Lemma analyze_audio_without_key (w : World) (path : string) (n : Z) :
  api_key_missing (environ_get w "OPENROUTER_API_KEY") = true ->
  analyze_audio w path n
  = ([], Raise (RuntimeError "OPENROUTER_API_KEY not set")).
Proof.
  intros H. unfold analyze_audio. now rewrite H.
Qed.

(** A clip that lacks ground truth or a listener count. *)
Lemma process_clip_skip (w : World) (store : PyDict.t pyval)
  (ls : PyDict.t Z) (ad : CorpusResults) (audio_file : string) :
  PyDict.mem (stem audio_file) store && PyDict.mem (stem audio_file) ls = false ->
  process_clip w (PDict store) ls ad audio_file
  = ([EPrint ("Skipping " ++ stem audio_file
                          ++ ": no truth data or listener count")], Ok ad).
Proof.
  intros H. unfold process_clip. cbn [py_contains lift bind].
  replace (negb (PyDict.mem (stem audio_file) store)
           || negb (PyDict.mem (stem audio_file) ls)) with true.
  - reflexivity.
  - now rewrite <- negb_andb, H.
Qed.

(** What a turn of the loop can do to the results: nothing, or one
    assignment under the clip's id, and this only for a clip the store
    and the listener table both know. *)
Lemma process_clip_result (w : World) (truth_data : pyval) (ls : PyDict.t Z)
  (ad ad' : CorpusResults) (audio_file : string) (tr : list event) :
  process_clip w truth_data ls ad audio_file = (tr, Ok ad') ->
  ad' = ad \/
  exists differences,
    ad' = PyDict.set (stem audio_file) differences ad /\
    py_contains (stem audio_file) truth_data = Ok true /\
    PyDict.mem (stem audio_file) ls = true.
Proof.
  unfold process_clip.
  destruct (py_contains (stem audio_file) truth_data) as [in_truth|e] eqn:C;
    cbn [lift bind]; [|discriminate].
  destruct in_truth; cbn [negb orb].
  - destruct (PyDict.mem (stem audio_file) ls) eqn:L; cbn [negb].
    + cbn [print emit bind]. unfold try_clip.
      destruct (clip_differences w truth_data ls audio_file (stem audio_file))
        as [tr1 [differences|e]].
      * destruct (sample_line differences); intros [= _ <-];
          right; now exists differences.
      * intros [= _ <-]. now left.
    + cbn. intros [= _ <-]. now left.
  - cbn. intros [= _ <-]. now left.
Qed.

(** The keys of the results only grow at the end, in the order of the
    files. *)
Lemma main_loop_order (w : World) (truth_data : pyval) (ls : PyDict.t Z)
  (audio_files : list string) (ad ad' : CorpusResults) (tr : list event) :
  main_loop w truth_data ls audio_files ad = (tr, Ok ad') ->
  exists added,
    PyDict.keys ad' = (PyDict.keys ad ++ added)%list /\
    subsequence added (map stem audio_files).
Proof.
  revert ad tr. induction audio_files as [|f rest IH]; intros ad tr;
    cbn [main_loop].
  - intros [= _ <-]. exists []. split; [now rewrite app_nil_r | constructor].
  - intros H. apply bind_ok_inv in H as (tr1 & ad1 & tr2 & P & L & _).
    destruct (IH _ _ L) as (added & K & S).
    apply process_clip_result in P as [->|(differences & -> & _ & _)].
    + exists added. split; [exact K|]. cbn [map]. now constructor.
    + rewrite keys_set in K.
      destruct (PyDict.mem (stem f) ad).
      * exists added. split; [exact K|]. cbn [map]. now constructor.
      * exists (stem f :: added). split.
        -- now rewrite K, <- app_assoc.
        -- cbn [map]. now constructor.
Qed.

(** No clip outside the store or the listener table ever gets a
    record. *)
Lemma main_loop_known_clips (w : World) (store : PyDict.t pyval)
  (ls : PyDict.t Z) (audio_files : list string) (ad ad' : CorpusResults)
  (tr : list event) (k : string) :
  main_loop w (PDict store) ls audio_files ad = (tr, Ok ad') ->
  PyDict.mem k store && PyDict.mem k ls = false ->
  PyDict.mem k ad = false -> PyDict.mem k ad' = false.
Proof.
  intros H Hk. revert ad tr H.
  induction audio_files as [|f rest IH]; intros ad tr; cbn [main_loop].
  - now intros [= _ <-].
  - intros H Hm. apply bind_ok_inv in H as (tr1 & ad1 & tr2 & P & L & _).
    apply (IH _ _ L).
    apply process_clip_result in P as [->|(differences & -> & C & M)];
      [exact Hm|].
    rewrite mem_set, Hm, orb_false_r.
    destruct (String.eqb_spec k (stem f)) as [->|]; [|reflexivity].
    cbn [py_contains] in C. injection C as C.
    now rewrite C, M in Hk.
Qed.

(** A record that a turn of the loop stores comes from
    [calculate_differences], so it has the nine keys. *)
Lemma process_clip_record_keys (w : World) (truth_data : pyval)
  (ls : PyDict.t Z) (ad ad' : CorpusResults) (audio_file : string)
  (tr : list event) :
  process_clip w truth_data ls ad audio_file = (tr, Ok ad') ->
  ad' = ad \/
  exists differences,
    ad' = PyDict.set (stem audio_file) differences ad /\
    PyDict.keys differences = emotions.
Proof.
  unfold process_clip.
  destruct (py_contains (stem audio_file) truth_data) as [in_truth|e];
    cbn [lift bind]; [|discriminate].
  destruct (negb in_truth || negb (PyDict.mem (stem audio_file) ls)).
  - cbn. intros [= _ <-]. now left.
  - cbn [print emit bind]. unfold try_clip.
    destruct (clip_differences w truth_data ls audio_file (stem audio_file))
      as [tr1 [differences|e]] eqn:C.
    + assert (PyDict.keys differences = emotions) as K.
      { unfold clip_differences in C.
        apply bind_ok_inv in C as (? & n & ? & _ & C & _).
        apply bind_ok_inv in C as (? & pred & ? & _ & C & _).
        apply bind_ok_inv in C as (? & truth & ? & _ & C & _).
        injection C as _ C.
        exact (calculate_differences_keys truth pred differences C). }
      destruct (sample_line differences); intros [= _ <-];
        right; now exists differences.
    + intros [= _ <-]. now left.
Qed.

Lemma values_set_Forall {V} (P : V -> Prop) (k : string) (v : V)
  (d : PyDict.t V) :
  Forall P (PyDict.values d) -> P v ->
  Forall P (PyDict.values (PyDict.set k v d)).
Proof.
  unfold PyDict.values. intros H Hv.
  induction d as [|[k0 v0] d IH]; cbn [PyDict.set map snd].
  - now constructor.
  - inversion_clear H as [|? ? H0 Hd].
    destruct (String.eqb k k0); cbn [map snd]; constructor; auto.
Qed.

Lemma process_clip_keeps_records_complete (w : World) (truth_data : pyval) (ls : PyDict.t Z)
  (ad ad1 : CorpusResults) (f : string) (tr : list event) :
  Forall (fun r => PyDict.keys r = emotions) (PyDict.values ad) ->
  process_clip w truth_data ls ad f = (tr, Ok ad1) ->
  Forall (fun r => PyDict.keys r = emotions) (PyDict.values ad1).
Proof.
  intros Inv P.
  apply process_clip_record_keys in P as [->|(differences & -> & K)];
    [exact Inv | now apply values_set_Forall].
Qed.

(** Every record of a run has the nine keys. *)
Lemma main_loop_records_complete (w : World) (truth_data : pyval)
  (ls : PyDict.t Z) (audio_files : list string) (ad ad' : CorpusResults)
  (tr : list event) :
  Forall (fun r => PyDict.keys r = emotions) (PyDict.values ad) ->
  main_loop w truth_data ls audio_files ad = (tr, Ok ad') ->
  Forall (fun r => PyDict.keys r = emotions) (PyDict.values ad').
Proof.
  revert ad tr. induction audio_files as [|f rest IH]; intros ad tr Inv;
    cbn [main_loop].
  - now intros [= _ <-].
  - intros H. apply bind_ok_inv in H as (tr1 & ad1 & tr2 & P & L & _).
    apply (IH _ _ (process_clip_keeps_records_complete _ _ _ _ _ _ _ Inv P) L).
Qed.

(** C8. A clip whose id is missing from the ground-truth store or from
    the listener table costs one log line: no file is read, no request
    sent, the results stay as they were, and the loop goes on with the
    next file; whatever the rest of the run does, the results never hold
    a record under that id. *)
Theorem missing_clip_is_skipped (w : World) (store : PyDict.t pyval)
  (ls : PyDict.t Z) (ad : CorpusResults) (audio_file : string)
  (rest : list string) :
  PyDict.mem (stem audio_file) store && PyDict.mem (stem audio_file) ls = false ->
  process_clip w (PDict store) ls ad audio_file
  = ([EPrint ("Skipping " ++ stem audio_file
                          ++ ": no truth data or listener count")], Ok ad) /\
  main_loop w (PDict store) ls (audio_file :: rest) ad
  = (EPrint ("Skipping " ++ stem audio_file
                         ++ ": no truth data or listener count")
       :: fst (main_loop w (PDict store) ls rest ad),
     snd (main_loop w (PDict store) ls rest ad)) /\
  forall (audio_files : list string) (tr : list event) (ad' : CorpusResults),
    main_loop w (PDict store) ls audio_files [] = (tr, Ok ad') ->
    PyDict.mem (stem audio_file) ad' = false.
Proof.
  intros H. split; [now apply process_clip_skip|]. split.
  - cbn [main_loop]. rewrite (process_clip_skip w store ls ad audio_file H).
    cbn [bind]. now destruct (main_loop w (PDict store) ls rest ad).
  - intros audio_files tr ad' L.
    now apply (main_loop_known_clips w store ls audio_files [] ad' tr).
Qed.

Lemma missing_clip_is_skipped_witness :
  PyDict.mem "song_77" truth_store && PyDict.mem "song_77" listeners = false /\
  process_clip no_key_world (PDict truth_store) listeners [] "song_77.opus"
  = ([EPrint "Skipping song_77: no truth data or listener count"], Ok []).
Proof.
  split; [reflexivity|].
  exact (proj1 (missing_clip_is_skipped no_key_world truth_store listeners []
                  "song_77.opus" ["song_1.opus"] eq_refl)).
Defined.

(** Without the credential a clip that passes the filter is announced,
    fails with the configuration error, and leaves the results alone. *)
Lemma process_clip_without_key (w : World) (store : PyDict.t pyval)
  (ls : PyDict.t Z) (ad : CorpusResults) (audio_file : string) :
  api_key_missing (environ_get w "OPENROUTER_API_KEY") = true ->
  PyDict.mem (stem audio_file) store && PyDict.mem (stem audio_file) ls = true ->
  process_clip w (PDict store) ls ad audio_file
  = ([EPrint ("Processing " ++ stem audio_file ++ "...");
      EPrintExn "  Error: " (RuntimeError "OPENROUTER_API_KEY not set")],
     Ok ad).
Proof.
  intros K H. apply andb_true_iff in H as [Hs Hl].
  unfold process_clip. cbn [py_contains lift bind]. rewrite Hs, Hl.
  cbn [negb orb print emit bind]. unfold try_clip, clip_differences.
  destruct (mem_get _ _ Hl) as [n ->]. cbn [lift bind].
  rewrite (analyze_audio_without_key w _ n K). reflexivity.
Qed.

(** The log of one clip in a run without the credential. *)
Lemma main_loop_without_key (w : World) (store : PyDict.t pyval)
  (ls : PyDict.t Z) (audio_files : list string) (ad : CorpusResults) :
  api_key_missing (environ_get w "OPENROUTER_API_KEY") = true ->
  main_loop w (PDict store) ls audio_files ad
  = (flat_map
       (fun f =>
          if PyDict.mem (stem f) store && PyDict.mem (stem f) ls
          then [EPrint ("Processing " ++ stem f ++ "...");
                EPrintExn "  Error: "
                          (RuntimeError "OPENROUTER_API_KEY not set")]
          else [EPrint ("Skipping " ++ stem f
                                    ++ ": no truth data or listener count")])
       audio_files,
     Ok ad).
Proof.
  intros K. induction audio_files as [|f rest IH]; [reflexivity|].
  cbn [main_loop flat_map].
  destruct (PyDict.mem (stem f) store && PyDict.mem (stem f) ls) eqn:H.
  - rewrite (process_clip_without_key w store ls ad f K H).
    cbn [bind]. now rewrite IH.
  - rewrite (process_clip_skip w store ls ad f H).
    cbn [bind]. now rewrite IH.
Qed.

(** Without the credential a turn of the loop only prints, whatever
    the ground truth is, and keeps the results as they are unless the
    membership test itself raises. *)
Lemma process_clip_without_key_prints (w : World) (truth_data : pyval)
  (ls : PyDict.t Z) (ad : CorpusResults) (audio_file : string) :
  api_key_missing (environ_get w "OPENROUTER_API_KEY") = true ->
  forallb is_print (fst (process_clip w truth_data ls ad audio_file)) = true /\
  (snd (process_clip w truth_data ls ad audio_file) = Ok ad \/
   exists e, snd (process_clip w truth_data ls ad audio_file) = Raise e).
Proof.
  intros K. unfold process_clip.
  destruct (py_contains (stem audio_file) truth_data) as [in_truth|e];
    cbn [lift bind]; [|split; [reflexivity | right; now exists e]].
  destruct (negb in_truth || negb (PyDict.mem (stem audio_file) ls));
    [split; [reflexivity | now left]|].
  cbn [print emit bind]. unfold try_clip, clip_differences.
  destruct (PyDict.get (stem audio_file) ls) as [n|]; cbn [lift bind].
  - rewrite (analyze_audio_without_key w _ n K).
    split; [reflexivity | now left].
  - split; [reflexivity | now left].
Qed.

Lemma main_loop_without_key_prints (w : World) (truth_data : pyval)
  (ls : PyDict.t Z) (audio_files : list string) (ad : CorpusResults) :
  api_key_missing (environ_get w "OPENROUTER_API_KEY") = true ->
  forallb is_print (fst (main_loop w truth_data ls audio_files ad)) = true /\
  (snd (main_loop w truth_data ls audio_files ad) = Ok ad \/
   exists e, snd (main_loop w truth_data ls audio_files ad) = Raise e).
Proof.
  intros K. induction audio_files as [|f rest IH];
    [split; [reflexivity | now left]|].
  cbn [main_loop].
  destruct (process_clip_without_key_prints w truth_data ls ad f K)
    as [P [R|[e R]]];
    destruct (process_clip w truth_data ls ad f) as [tr1 r1];
    cbn [fst snd] in P, R; subst r1; cbn [bind].
  - destruct IH as [P' R'].
    destruct (main_loop w truth_data ls rest ad) as [tr2 r2].
    cbn [fst snd] in *. split; [|exact R'].
    rewrite forallb_app. now rewrite P, P'.
  - split; [exact P | right; now exists e].
Qed.

(** Without the credential a run only prints. *)
Lemma main_without_key_prints (w : World) :
  api_key_missing (environ_get w "OPENROUTER_API_KEY") = true ->
  forallb is_print (fst (main w)) = true.
Proof.
  intros K. unfold main.
  destruct (load_ground_truth_and_listeners w) as [tr0 [[td ls]|e]] eqn:L.
  - assert (tr0 = []) as ->.
    { unfold load_ground_truth_and_listeners in L.
      destruct (truth_file w); [|discriminate].
      destruct (py_json_loads w (PStr s)); now injection L as <-. }
    cbn [bind lift fst]. destruct (py_len td) as [n|e]; cbn [bind print emit ret app].
    + destruct (main_loop_without_key_prints w td ls (glob_song_opus w) [] K)
        as [P R].
      destruct (main_loop w td ls (glob_song_opus w) []) as [tr1 r1].
      cbn [fst snd] in P, R. destruct R as [->|[e ->]]; cbn [bind save_results print emit fst].
      * cbn [forallb is_print andb]. rewrite forallb_app. now rewrite P.
      * cbn [forallb is_print andb]. exact P.
    + destruct (is_FileNotFoundError e); reflexivity.
  - assert (tr0 = []) as ->.
    { unfold load_ground_truth_and_listeners in L.
      destruct (truth_file w); [|now injection L as <-].
      destruct (py_json_loads w (PStr s)); now injection L as <-. }
    cbn [bind]. destruct (is_FileNotFoundError e); reflexivity.
Qed.

(** C1, as the code has it.  Without the credential (unset or empty)
    every call of [analyze_audio] raises the configuration error at
    once; the loop catches it like any other error of a clip, logs it and
    goes on to the next file.  The run opens no audio file, sends no
    request and writes no table; with a ground-truth store that is a
    JSON object it logs every clip and ends normally on
    [No results to save]. *)
Theorem missing_key_fails_each_clip (w : World) :
  api_key_missing (environ_get w "OPENROUTER_API_KEY") = true ->
  (forall (path : string) (n : Z),
      analyze_audio w path n
      = ([], Raise (RuntimeError "OPENROUTER_API_KEY not set"))) /\
  forallb is_print (fst (main w)) = true /\
  forall (contents : string) (store : PyDict.t pyval),
    truth_file w = Some contents ->
    json_loads w contents = Ok (PDict store) ->
    main w
    = ((EPrint ("Loaded truth data for "
                  ++ str_of_Z (Z.of_nat (List.length store)) ++ " songs")
          :: flat_map
               (fun f =>
                  if PyDict.mem (stem f) store && PyDict.mem (stem f) listeners
                  then [EPrint ("Processing " ++ stem f ++ "...");
                        EPrintExn "  Error: "
                                  (RuntimeError "OPENROUTER_API_KEY not set")]
                  else [EPrint ("Skipping " ++ stem f
                                  ++ ": no truth data or listener count")])
               (glob_song_opus w))
         ++ [EPrint "No results to save"],
       Ok tt)%list.
Proof.
  intros K. split; [|split].
  - intros path n. now apply analyze_audio_without_key.
  - now apply main_without_key_prints.
  - intros contents store T J.
    unfold main, load_ground_truth_and_listeners. rewrite T.
    unfold py_json_loads. rewrite J.
    cbn [lift ret bind fst py_len print emit app].
    rewrite (main_loop_without_key w store listeners (glob_song_opus w) [] K).
    cbn [bind save_results print emit]. reflexivity.
Qed.

Lemma missing_key_fails_each_clip_witness :
  main no_key_world
  = ([EPrint "Loaded truth data for 2 songs";
      EPrint "Processing song_1...";
      EPrintExn "  Error: " (RuntimeError "OPENROUTER_API_KEY not set");
      EPrint "Processing song_2...";
      EPrintExn "  Error: " (RuntimeError "OPENROUTER_API_KEY not set");
      EPrint "No results to save"], Ok tt).
Proof.
  exact (proj2 (proj2 (missing_key_fails_each_clip no_key_world eq_refl))
               truth_text truth_store eq_refl eq_refl).
Defined.

(** C1 as stated fails: with the credential absent the first clip fails
    with the configuration error, and the run goes on to process the
    second clip and ends normally instead of aborting. *)
Lemma missing_key_does_not_abort_run :
  environ_get no_key_world "OPENROUTER_API_KEY" = None /\
  snd (main no_key_world) = Ok tt /\
  fst (main no_key_world)
  = [EPrint "Loaded truth data for 2 songs";
     EPrint "Processing song_1...";
     EPrintExn "  Error: " (RuntimeError "OPENROUTER_API_KEY not set");
     EPrint "Processing song_2...";
     EPrintExn "  Error: " (RuntimeError "OPENROUTER_API_KEY not set");
     EPrint "No results to save"].
Proof.
  repeat split; vm_compute; reflexivity.
Qed.

Lemma breakdown_first_cells (all_differences : CorpusResults) :
  map (hd CNaN) (rows (create_song_level_breakdown_table all_differences))
  = flat_map (fun song_id => [CStr song_id; CStr song_id])
             (PyDict.keys all_differences).
Proof.
  rewrite breakdown_table_eq. cbn [rows]. unfold PyDict.keys.
  induction all_differences as [|item items IH]; [reflexivity|].
  cbn [flat_map map app hd]. now rewrite IH.
Qed.

(** C7. The emotion columns of either view, read from left to right, are
    the canonical list (or none: the summary has no emotion column, nor
    has the frame of an empty corpus); the two flattened sequences follow
    the corpus and the canonical list; the rows of the breakdown follow
    the keys of the results; and the loop only ever adds a key at the end
    of the results, in the order the files are found, never sorting
    them. *)
Theorem views_keep_canonical_and_accumulation_order (w : World)
  (all_differences : CorpusResults) :
  filter is_emotion (columns (create_song_level_breakdown_table all_differences))
  = match all_differences with [] => [] | _ => emotions end /\
  filter is_emotion (columns (create_overall_summary_table all_differences))
  = [] /\
  collect_all all_differences
  = (flatten diff_mean all_differences, flatten diff_std all_differences) /\
  map (hd CNaN) (rows (create_song_level_breakdown_table all_differences))
  = flat_map (fun song_id => [CStr song_id; CStr song_id])
             (PyDict.keys all_differences) /\
  forall (truth_data : pyval) (ls : PyDict.t Z) (audio_files : list string)
         (tr : list event) (all_differences' : CorpusResults),
    main_loop w truth_data ls audio_files all_differences
    = (tr, Ok all_differences') ->
    exists added : list string,
      PyDict.keys all_differences'
      = (PyDict.keys all_differences ++ added)%list /\
      subsequence added (map stem audio_files).
Proof.
  split; [|split; [|split; [|split]]].
  - rewrite breakdown_table_eq. cbn [columns].
    now destruct all_differences.
  - reflexivity.
  - apply collect_all_flat.
  - apply breakdown_first_cells.
  - intros truth_data ls audio_files tr ad'. apply main_loop_order.
Qed.

(** A run whose directory yields [song_2] before [song_1]: the results
    and the breakdown keep that order. *)
Example run_keeps_discovery_order :
  exists (tr : list event) (ad : CorpusResults),
    main_loop (keyed_world unsorted_names) (PDict truth_store) listeners
              (glob_song_opus (keyed_world unsorted_names)) []
    = (tr, Ok ad) /\
    PyDict.keys ad = ["song_2"; "song_1"] /\
    map (hd CNaN) (rows (create_song_level_breakdown_table ad))
    = [CStr "song_2"; CStr "song_2"; CStr "song_1"; CStr "song_1"].
Proof.
  eexists. eexists. split; [vm_compute; reflexivity|].
  split; reflexivity.
Qed.

End Orchestrator.

(** ** InferenceClient: what a call does and does not do *)

Section InferenceClient.

(** X1. A call reads the audio file at most once and sends at most one
    request, in this order: nothing without the credential, only the read
    when the read fails, and otherwise the read followed by one request
    to the fixed endpoint that carries the credential, the prompt for the
    listener count and the encoded audio. *)
Theorem analyze_audio_one_read_one_request (w : World) (audio_path : string)
  (n_listeners : Z) :
  (api_key_missing (environ_get w "OPENROUTER_API_KEY") = true /\
   fst (analyze_audio w audio_path n_listeners) = []) \/
  (exists e : exn,
      read_bytes w audio_path = Raise e /\
      analyze_audio w audio_path n_listeners
      = ([EOpenRead audio_path], Raise e)) \/
  (exists api_key bytes : string,
      environ_get w "OPENROUTER_API_KEY" = Some api_key /\
      api_key <> "" /\
      read_bytes w audio_path = Ok bytes /\
      fst (analyze_audio w audio_path n_listeners)
      = [EOpenRead audio_path;
         EHttpPost
           {| req_url := OPENROUTER_URL;
              req_headers := [("Authorization", "Bearer " ++ api_key);
                              ("Content-Type", "application/json")];
              req_json := build_payload (get_gems_prompt n_listeners)
                                        (b64encode bytes) |}]).
Proof.
  unfold analyze_audio.
  destruct (environ_get w "OPENROUTER_API_KEY") as [[|c k]|] eqn:K;
    cbn [api_key_missing]; try (left; split; reflexivity).
  right. cbn [emit bind].
  destruct (read_bytes w audio_path) as [bytes|e] eqn:R; cbn [lift bind app].
  - right. exists (String c k), bytes.
    repeat split; [discriminate|].
    unfold build_headers.
    match goal with
    | |- context [http_post w ?r] => destruct (http_post w r) as [resp|e]
    end; cbn [lift bind app emit]; [|reflexivity].
    destruct (negb (status_code resp =? 200)); cbn [raise bind app];
      [reflexivity|].
    destruct (response_content w resp); cbn [lift bind app];
      [|reflexivity].
    destruct (extract w a); reflexivity.
  - left. now exists e.
Qed.

(** X2. A reply whose status is not 200 is never decoded: the call raises
    the plain exception that names the status. *)
Theorem analyze_audio_rejects_other_status (w : World)
  (audio_path api_key bytes : string) (n_listeners : Z) (response : Response) :
  environ_get w "OPENROUTER_API_KEY" = Some api_key ->
  api_key <> "" ->
  read_bytes w audio_path = Ok bytes ->
  http_post w {| req_url := OPENROUTER_URL;
                 req_headers := build_headers api_key;
                 req_json := build_payload (get_gems_prompt n_listeners)
                                           (b64encode bytes) |}
  = Ok response ->
  status_code response <> 200 ->
  snd (analyze_audio w audio_path n_listeners)
  = Raise (Exception_ ("API error: " ++ str_of_Z (status_code response))).
Proof.
  intros K Hk R P S. unfold analyze_audio. rewrite K.
  destruct api_key as [|c k]; [now elim Hk|]. cbn [api_key_missing].
  cbn [emit bind]. rewrite R. cbn [lift bind]. rewrite P. cbn [lift bind].
  apply Z.eqb_neq in S. rewrite S. reflexivity.
Qed.

Lemma analyze_audio_rejects_other_status_witness :
  snd (analyze_audio refusing_world "data/raw/song_1.opus" 48)
  = Raise (Exception_ "API error: 500").
Proof.
  apply (analyze_audio_rejects_other_status refusing_world
           "data/raw/song_1.opus" "sk-test" "OggS" 48
           {| status_code := 500; text := "" |});
    try reflexivity; discriminate.
Defined.

End InferenceClient.

(** ** Orchestrator: the run as a whole *)

Section Run.

Lemma get_set_other {V} (k k' : string) (v : V) (d : PyDict.t V) :
  k <> k' -> PyDict.get k (PyDict.set k' v d) = PyDict.get k d.
Proof.
  intros ne. induction d as [|[k0 v0] d IH]; cbn [PyDict.set PyDict.get].
  - destruct (String.eqb_spec k k'); [contradiction | reflexivity].
  - destruct (String.eqb_spec k' k0) as [->|ne0]; cbn [PyDict.get].
    + destruct (String.eqb_spec k k0); [contradiction | reflexivity].
    + destruct (String.eqb k k0); [reflexivity | exact IH].
Qed.

Lemma get_set_same {V} (k : string) (v : V) (d : PyDict.t V) :
  PyDict.get k (PyDict.set k v d) = Some v.
Proof.
  induction d as [|[k0 v0] d IH]; cbn [PyDict.set PyDict.get].
  - now rewrite String.eqb_refl.
  - destruct (String.eqb k k0) eqn:E; cbn [PyDict.get]; now rewrite E.
Qed.

Lemma bind_trace_forallb {A B} (P : event -> bool) (m : eff A)
  (k : A -> eff B) :
  forallb P (fst m) = true ->
  (forall a, forallb P (fst (k a)) = true) ->
  forallb P (fst (bind m k)) = true.
Proof.
  intros Hm Hk. destruct m as [tr [a|e]]; cbn [bind fst] in *; [|exact Hm].
  specialize (Hk a). destruct (k a) as [tr' r]. cbn [fst] in *.
  rewrite forallb_app. now rewrite Hm, Hk.
Qed.

Lemma analyze_audio_writes_no_table (w : World) (path : string) (n : Z) :
  forallb (fun ev => negb (is_to_csv ev)) (fst (analyze_audio w path n)) = true.
Proof.
  unfold analyze_audio.
  destruct (api_key_missing (environ_get w "OPENROUTER_API_KEY"));
    [reflexivity|].
  apply bind_trace_forallb; [reflexivity | intros _].
  apply bind_trace_forallb; [reflexivity | intros bytes].
  apply bind_trace_forallb; [reflexivity | intros _].
  apply bind_trace_forallb; [reflexivity | intros response].
  destruct (negb (status_code response =? 200)); [reflexivity|].
  apply bind_trace_forallb; [reflexivity | reflexivity].
Qed.

Lemma clip_differences_writes_no_table (w : World) (truth_data : pyval)
  (ls : PyDict.t Z) (audio_file song_id : string) :
  forallb (fun ev => negb (is_to_csv ev))
          (fst (clip_differences w truth_data ls audio_file song_id)) = true.
Proof.
  unfold clip_differences.
  apply bind_trace_forallb; [reflexivity | intros n].
  apply bind_trace_forallb; [apply analyze_audio_writes_no_table | intros pred].
  apply bind_trace_forallb; [reflexivity | reflexivity].
Qed.

(** A turn of the loop over a store that is an object always ends
    normally, and writes no table. *)
Lemma process_clip_total (w : World) (store : PyDict.t pyval) (ls : PyDict.t Z)
  (ad : CorpusResults) (audio_file : string) :
  exists tr ad', process_clip w (PDict store) ls ad audio_file = (tr, Ok ad') /\
                 forallb (fun ev => negb (is_to_csv ev)) tr = true.
Proof.
  unfold process_clip. cbn [py_contains lift bind].
  destruct (negb (PyDict.mem (stem audio_file) store)
            || negb (PyDict.mem (stem audio_file) ls)).
  - eexists. eexists. split; reflexivity.
  - cbn [print emit bind]. unfold try_clip.
    pose proof (clip_differences_writes_no_table w (PDict store) ls audio_file
                  (stem audio_file)) as Q.
    destruct (clip_differences w (PDict store) ls audio_file (stem audio_file))
      as [tr [d|e]]; cbn [fst] in Q.
    + destruct (sample_line d); eexists; eexists; (split; [reflexivity|]);
        cbn [app forallb is_to_csv negb andb]; rewrite forallb_app, Q;
          reflexivity.
    + eexists; eexists; (split; [reflexivity|]).
      cbn [app forallb is_to_csv negb andb]. rewrite forallb_app, Q.
      reflexivity.
Qed.

Lemma main_loop_total (w : World) (store : PyDict.t pyval) (ls : PyDict.t Z)
  (audio_files : list string) (ad : CorpusResults) :
  exists tr ad',
    main_loop w (PDict store) ls audio_files ad = (tr, Ok ad') /\
    forallb (fun ev => negb (is_to_csv ev)) tr = true.
Proof.
  revert ad. induction audio_files as [|f rest IH]; intros ad.
  - exists [], ad. split; reflexivity.
  - cbn [main_loop].
    destruct (process_clip_total w store ls ad f) as (tr1 & ad1 & P & Q1).
    destruct (IH ad1) as (tr2 & ad2 & L & Q2).
    exists (tr1 ++ tr2)%list, ad2. rewrite P. cbn [bind]. rewrite L.
    split; [reflexivity|]. rewrite forallb_app. now rewrite Q1, Q2.
Qed.

(** X13. Per-clip isolation.  Over a store that is an object a turn of the
    loop never raises, whatever the file system, the endpoint and the
    decoder do: it leaves the results as they are or stores one record
    with the nine keys under the clip's id, it writes no table, and the
    record of every other clip is untouched. *)
Theorem process_clip_is_isolated (w : World) (store : PyDict.t pyval)
  (ls : PyDict.t Z) (ad : CorpusResults) (audio_file : string) :
  exists (tr : list event) (ad' : CorpusResults),
    process_clip w (PDict store) ls ad audio_file = (tr, Ok ad') /\
    forallb (fun ev => negb (is_to_csv ev)) tr = true /\
    (ad' = ad \/
     exists differences,
       PyDict.keys differences = emotions /\
       PyDict.get (stem audio_file) ad' = Some differences) /\
    forall k, k <> stem audio_file -> PyDict.get k ad' = PyDict.get k ad.
Proof.
  destruct (process_clip_total w store ls ad audio_file) as (tr & ad' & P & Q).
  exists tr, ad'. split; [exact P|]. split; [exact Q|].
  destruct (process_clip_record_keys _ _ _ _ _ _ _ P)
    as [->|(differences & -> & K)].
  - split; [now left | reflexivity].
  - split.
    + right. exists differences. split; [exact K | apply get_set_same].
    + intros k ne. now apply get_set_other.
Qed.

(** X10. A missing ground-truth file ends the run at once: one line names
    the file, nothing else happens, and the run ends normally. *)
Theorem main_without_truth_file (w : World) :
  truth_file w = None ->
  main w
  = ([EPrintExn "Error: "
        (FileNotFoundError
           "Truth data file not found: emotify_song_level_stats.json")],
     Ok tt).
Proof.
  intros T. unfold main, load_ground_truth_and_listeners. now rewrite T.
Qed.

Lemma main_without_truth_file_witness :
  main (world_with_truth None)
  = ([EPrintExn "Error: "
        (FileNotFoundError
           "Truth data file not found: emotify_song_level_stats.json")],
     Ok tt).
Proof.
  apply (main_without_truth_file (world_with_truth None)). reflexivity.
Defined.

(** X11. Only the missing file is caught.  A ground-truth file that does not
    decode, or that decodes to a value without a length (null, a number,
    a boolean), makes the run end with the exception, before any line
    is printed and before any clip is looked at. *)
Theorem main_propagates_other_load_errors (w : World) (contents : string) :
  truth_file w = Some contents ->
  (json_loads w contents = Raise JSONDecodeError ->
   main w = ([], Raise JSONDecodeError)) /\
  (forall v, json_loads w contents = Ok v -> py_len v = Raise TypeError ->
             main w = ([], Raise TypeError)).
Proof.
  intros T. unfold main, load_ground_truth_and_listeners. rewrite T.
  unfold py_json_loads. split.
  - intros ->. reflexivity.
  - intros v -> L. cbn [lift bind ret fst]. now rewrite L.
Qed.

Lemma main_propagates_other_load_errors_witness :
  main (world_with_truth (Some "not json")) = ([], Raise JSONDecodeError) /\
  main (world_with_truth (Some "42")) = ([], Raise TypeError).
Proof.
  split.
  - apply (main_propagates_other_load_errors
             (world_with_truth (Some "not json")) "not json" eq_refl).
    reflexivity.
  - apply (proj2 (main_propagates_other_load_errors
                    (world_with_truth (Some "42")) "42" eq_refl)
                 (PInt 42)); reflexivity.
Defined.

(** X17. The shape of a run over a store that is an object.  After the
    line that reports the size of the store the loop always runs to its
    end, every error of a clip being caught, and nothing is written
    during it.  What follows starts with the line that reports the
    number of results, before any table is built, when there are
    results; with no result the run prints that there is nothing to save
    and ends normally, having written nothing. *)
Theorem main_writes_tables_last (w : World) (contents : string)
  (store : PyDict.t pyval) :
  truth_file w = Some contents ->
  json_loads w contents = Ok (PDict store) ->
  exists (tr rest : list event) (ad : CorpusResults),
    main_loop w (PDict store) listeners (glob_song_opus w) [] = (tr, Ok ad) /\
    forallb (fun ev => negb (is_to_csv ev)) tr = true /\
    fst (main w)
    = ((EPrint ("Loaded truth data for "
                  ++ str_of_Z (Z.of_nat (List.length store)) ++ " songs")
          :: tr) ++ rest)%list /\
    match ad with
    | [] => rest = [EPrint "No results to save"] /\ snd (main w) = Ok tt
    | _ => hd_error rest
           = Some (EPrint (nl ++ "Processed "
                              ++ str_of_Z (Z.of_nat (List.length ad))
                              ++ " songs"))
    end.
Proof.
  intros T J.
  destruct (main_loop_total w store listeners (glob_song_opus w) [])
    as (tr & ad & L & Q).
  exists tr, (fst (save_results ad)), ad.
  split; [exact L|]. split; [exact Q|].
  unfold main, load_ground_truth_and_listeners. rewrite T.
  unfold py_json_loads. rewrite J.
  cbn [lift ret bind fst py_len print emit app]. rewrite L.
  cbn [bind].
  destruct ad; (split; [reflexivity|]); [split; reflexivity | reflexivity].
Qed.

Lemma main_writes_tables_last_witness :
  exists (tr rest : list event) (ad : CorpusResults),
    main_loop (keyed_world unsorted_names) (PDict truth_store) listeners
              (glob_song_opus (keyed_world unsorted_names)) [] = (tr, Ok ad) /\
    forallb (fun ev => negb (is_to_csv ev)) tr = true /\
    fst (main (keyed_world unsorted_names))
    = ((EPrint "Loaded truth data for 2 songs" :: tr) ++ rest)%list /\
    match ad with
    | [] => rest = [EPrint "No results to save"] /\
            snd (main (keyed_world unsorted_names)) = Ok tt
    | _ => hd_error rest
           = Some (EPrint (nl ++ "Processed "
                              ++ str_of_Z (Z.of_nat (List.length ad))
                              ++ " songs"))
    end.
Proof.
  exact (main_writes_tables_last (keyed_world unsorted_names) truth_text
           truth_store eq_refl eq_refl).
Defined.

(** X16. The progress line of a clip never fails for want of an entry: a
    record that [calculate_differences] returns has the two entries the
    line formats, so no [KeyError] is raised. *)
Theorem sample_line_never_raises (truth pred : pyval) (r : DifferenceRecord) :
  calculate_differences truth pred = Ok r ->
  exists a c : DiffEntry,
    PyDict.get "amazement" r = Some a /\
    PyDict.get "calmness" r = Some c /\
    sample_line r
    = Ok ("  Sample diffs - amazement_mean: " ++ format_4f (diff_mean a)
          ++ ", calmness_std: " ++ format_4f (diff_std c)).
Proof.
  intros H. apply calculate_differences_keys in H.
  unfold PyDict.keys, emotions in H.
  do 9 (destruct r as [|[? ?] r]; [discriminate|];
        cbn [map fst] in H; injection H as -> H).
  eexists. eexists. repeat split; reflexivity.
Qed.

Lemma sample_line_never_raises_witness :
  exists a c : DiffEntry,
    PyDict.get "amazement" (map (fun k => (k, max_penalty)) emotions) = Some a /\
    PyDict.get "calmness" (map (fun k => (k, max_penalty)) emotions) = Some c /\
    sample_line (map (fun k => (k, max_penalty)) emotions)
    = Ok ("  Sample diffs - amazement_mean: " ++ format_4f (diff_mean a)
          ++ ", calmness_std: " ++ format_4f (diff_std c)).
Proof.
  apply (sample_line_never_raises (PDict []) (PDict [])). reflexivity.
Defined.

Lemma get_of_key {V} (k : string) (d : PyDict.t V) :
  In k (PyDict.keys d) -> exists v, PyDict.get k d = Some v.
Proof.
  unfold PyDict.keys. induction d as [|[k0 v0] d IH]; cbn [map fst In];
    [contradiction|].
  cbn [PyDict.get]. destruct (String.eqb_spec k k0) as [->|ne].
  - intros _. now exists v0.
  - intros [E|H]; [now elim ne | now apply IH].
Qed.

Lemma complete_corpus_cells (ad : CorpusResults) :
  Forall (fun r => PyDict.keys r = emotions) (PyDict.values ad) ->
  Forall (fun row =>
            Forall (fun c => exists x : Q, c = CStr (format_4f x))
                   (skipn 2 row))
         (rows (create_song_level_breakdown_table ad)).
Proof.
  rewrite breakdown_table_eq. cbn [rows]. unfold PyDict.values.
  induction ad as [|[song_id r] ad IH]; cbn [flat_map map snd]; intros C;
    [constructor|].
  inversion_clear C as [|? ? K C'].
  assert (cells : forall field,
             Forall (fun c => exists x : Q, c = CStr (format_4f x))
                    (map (fun k => CStr (emotion_cell r field k)) emotions)).
  { intros field. apply Forall_forall. intros c Hc.
    apply in_map_iff in Hc as (k & <- & Hk).
    unfold emotion_cell. rewrite <- K in Hk.
    destruct (get_of_key k r Hk) as [e ->]. now exists (field e). }
  cbn [app fst snd]. constructor; [apply cells|].
  constructor; [apply cells|]. now apply IH.
Qed.

(** X19. In a run no emotion cell of the breakdown is the sentinel, nor an
    empty cell: the results the loop builds from nothing hold complete
    records only, so the [else] branches of the table builder are never
    taken.  The cells are those of a table the builder returns, its
    records holding finite numbers. *)
Theorem run_breakdown_has_no_sentinel (w : World) (truth_data : pyval)
  (ls : PyDict.t Z) (audio_files : list string) (tr : list event)
  (ad : CorpusResults) :
  main_loop w truth_data ls audio_files [] = (tr, Ok ad) ->
  Forall (fun row =>
            Forall (fun c => c <> CStr "N/A" /\ c <> CNaN) (skipn 2 row))
         (rows (create_song_level_breakdown_table ad)).
Proof.
  intros L.
  assert (Forall (fun r => PyDict.keys r = emotions) (PyDict.values ad)) as C.
  { apply (main_loop_records_complete w truth_data ls audio_files [] ad tr);
      [constructor | exact L]. }
  apply complete_corpus_cells in C.
  eapply Forall_impl; [|exact C]. intros row Hrow.
  eapply Forall_impl; [|exact Hrow]. intros c [x ->].
  split; [|discriminate]. intros [= E].
  now apply format_4f_not_sentinel in E.
Qed.

Lemma run_breakdown_has_no_sentinel_witness :
  Forall (fun row =>
            Forall (fun c => c <> CStr "N/A" /\ c <> CNaN) (skipn 2 row))
         (rows (create_song_level_breakdown_table
                  (match snd (main_loop (keyed_world unsorted_names)
                                        (PDict truth_store) listeners
                                        unsorted_names [])
                   with Ok ad => ad | Raise _ => [] end))).
Proof.
  apply (run_breakdown_has_no_sentinel (keyed_world unsorted_names)
           (PDict truth_store) listeners unsorted_names
           (fst (main_loop (keyed_world unsorted_names) (PDict truth_store)
                           listeners unsorted_names []))).
  vm_compute. reflexivity.
Defined.

End Run.

(** ** DifferenceCalculator on values of any shape *)

Section RunTimeShapes.

Lemma emotion_difference_absent (truth pred : PyDict.t pyval) (k : string) :
  PyDict.mem k truth && PyDict.mem k pred = false ->
  emotion_difference (PDict truth) (PDict pred) k = Ok max_penalty.
Proof.
  intros H. unfold emotion_difference. cbn [py_contains rbind].
  destruct (PyDict.mem k truth); cbn [rbind andb] in *; [|reflexivity].
  now rewrite H.
Qed.

(** One turn of the loop on two dicts returns only if the key is absent
    from one of them or both entries are well formed. *)
Lemma emotion_difference_ok_only_if (truth pred : PyDict.t pyval) (k : string)
  (e : DiffEntry) :
  emotion_difference (PDict truth) (PDict pred) k = Ok e ->
  comparable truth pred k = true.
Proof.
  unfold comparable.
  destruct (PyDict.get k truth) as [t|] eqn:Gt; [|reflexivity].
  destruct (PyDict.get k pred) as [p|] eqn:Gp; [|reflexivity].
  unfold emotion_difference. cbn [py_contains rbind]. unfold PyDict.mem.
  rewrite Gt, Gp. cbn [rbind py_getitem]. rewrite Gt, Gp. cbn [rbind].
  intros H. apply andb_true_iff.
  unfold stats_ok, is_number, py_getitem, py_sub in *.
  destruct t as [| | | | | |dt]; try discriminate.
  destruct (PyDict.get "mean" dt) as [tm|]; [|discriminate].
  cbn [rbind] in H.
  destruct p as [| | | | | |dp]; try discriminate.
  destruct (PyDict.get "mean" dp) as [pm|]; [|discriminate].
  cbn [rbind] in H.
  destruct (as_number tm) as [[x|x]|]; [| |discriminate];
    (destruct (as_number pm) as [[y|y]|];
     [| |destruct (PyDict.get "std" dt); discriminate]);
    (destruct (PyDict.get "std" dt) as [ts|];
     [|repeat match goal with
              | H : context [if ?c then _ else _] |- _ => destruct c
              end; discriminate]);
    (destruct (PyDict.get "std" dp) as [ps|];
     [|repeat match goal with
              | H : context [if ?c then _ else _] |- _ => destruct c
              end; discriminate]);
    repeat match goal with
           | H : context [if ?c then _ else _] |- _ => destruct c
           end; try discriminate; cbn [rbind] in H;
    (destruct (as_number ts) as [[?|?]|]; [| |discriminate]);
    (destruct (as_number ps) as [[?|?]|]; [| |discriminate]);
    split; reflexivity.
Qed.

Lemma calculate_differences_loop_ok_only_if (truth pred : PyDict.t pyval)
  (todo : list string) (differences r : DifferenceRecord) :
  calculate_differences_loop (PDict truth) (PDict pred) todo differences
  = Ok r ->
  forallb (comparable truth pred) todo = true.
Proof.
  revert differences. induction todo as [|k todo IH]; intros differences;
    cbn [calculate_differences_loop forallb]; [reflexivity|].
  destruct (emotion_difference (PDict truth) (PDict pred) k) as [e|] eqn:E;
    cbn [rbind]; [|discriminate].
  intros H. rewrite (emotion_difference_ok_only_if truth pred k e E).
  exact (IH _ H).
Qed.

(** X5. On two dicts of values of any shape the function returns a record
    only if, for each of the nine keys that both dicts hold, both
    entries are dicts with a numeric [mean] and a numeric [std]: one
    malformed entry under a common key makes the whole call raise, and
    the clip is lost.  Keys outside the nine, and entries under a key the
    other dict lacks, are never looked at. *)
Theorem calculate_differences_needs_well_formed_entries
  (truth pred : PyDict.t pyval) :
  (exists r, calculate_differences (PDict truth) (PDict pred) = Ok r) ->
  forallb (comparable truth pred) emotions = true.
Proof.
  intros [r H]. exact (calculate_differences_loop_ok_only_if _ _ _ _ _ H).
Qed.

Lemma calculate_differences_needs_well_formed_entries_witness :
  forallb (comparable
             [("amazement",
               PDict [("mean", PNum (1 # 4)); ("std", PNum (1 # 8))]);
              ("tension", PStr "high")]
             [("amazement",
               PDict [("mean", PNum (1 # 2)); ("std", PNum (1 # 4))])])
          emotions = true.
Proof.
  apply (calculate_differences_needs_well_formed_entries
           [("amazement",
             PDict [("mean", PNum (1 # 4)); ("std", PNum (1 # 8))]);
            ("tension", PStr "high")]
           [("amazement",
             PDict [("mean", PNum (1 # 2)); ("std", PNum (1 # 4))])]).
  eexists. vm_compute. reflexivity.
Defined.

(** X6. When no emotion key is in both dicts every entry is the penalty,
    whatever the dicts hold: an entry is only read once its key is found
    on both sides, so a malformed entry on one side alone does no harm.
    This is what an empty prediction gives against any ground truth. *)
Theorem calculate_differences_without_common_key (truth pred : PyDict.t pyval) :
  forallb (fun k => negb (PyDict.mem k truth && PyDict.mem k pred)) emotions
  = true ->
  calculate_differences (PDict truth) (PDict pred)
  = Ok (map (fun k => (k, max_penalty)) emotions).
Proof.
  intros H. rewrite forallb_forall in H.
  assert (E : forall k, In k emotions ->
                        emotion_difference (PDict truth) (PDict pred) k
                        = Ok max_penalty).
  { intros k Hk. apply emotion_difference_absent.
    apply negb_true_iff. now apply H. }
  unfold calculate_differences, emotions in *.
  cbn [calculate_differences_loop].
  repeat (rewrite E by (cbn [In]; tauto); cbn [rbind]).
  reflexivity.
Qed.

Lemma calculate_differences_without_common_key_witness :
  calculate_differences (PDict malformed_truth) (PDict [])
  = Ok (map (fun k => (k, max_penalty)) emotions).
Proof.
  apply (calculate_differences_without_common_key malformed_truth []).
  reflexivity.
Defined.

(** X7. The record does not depend on which bundle is the ground truth. *)
Theorem calculate_differences_symmetric (truth pred : StatsBundle) :
  calculate_differences (py_of_bundle truth) (py_of_bundle pred)
  = calculate_differences (py_of_bundle pred) (py_of_bundle truth).
Proof.
  rewrite !calculate_differences_bundles. f_equal.
  apply map_ext. intros k. f_equal. unfold diff_spec.
  destruct (PyDict.get k truth), (PyDict.get k pred); try reflexivity.
  now rewrite (Qabs_Qminus (mean e) (mean e0)),
              (Qabs_Qminus (std e) (std e0)).
Qed.

(** X8. A prediction equal to the ground truth, all its statistics
    finite numbers: the differences are zero under the keys the bundle
    has, and still the full penalty under the keys it lacks. *)
Theorem calculate_differences_of_equal_bundles (b : StatsBundle) :
  exists r : DifferenceRecord,
    calculate_differences (py_of_bundle b) (py_of_bundle b) = Ok r /\
    Forall (fun k =>
              exists e : DiffEntry,
                PyDict.get k r = Some e /\
                if PyDict.mem k b
                then (diff_mean e == 0)%Q /\ (diff_std e == 0)%Q
                else e = max_penalty) emotions.
Proof.
  eexists. split; [apply calculate_differences_bundles|].
  pose proof (get_diff_spec b b) as G.
  rewrite Forall_forall in G. apply Forall_forall. intros k Hk.
  exists (diff_spec b b k). split; [now apply G|].
  unfold diff_spec, PyDict.mem.
  destruct (PyDict.get k b) as [s|]; [|reflexivity].
  cbn [diff_mean diff_std]. split.
  - setoid_replace (mean s - mean s)%Q with 0%Q by ring. reflexivity.
  - setoid_replace (std s - std s)%Q with 0%Q by ring. reflexivity.
Qed.

End RunTimeShapes.

(** ** Orchestrator: the files a run looks at *)

Section Discovery.

Lemma length_append (a b : string) :
  String.length (a ++ b) = (String.length a + String.length b)%nat.
Proof.
  induction a as [|c a IH]; cbn [append String.length plus];
    [reflexivity | now rewrite IH].
Qed.

Lemma substring_whole (s : string) : substring 0 (String.length s) s = s.
Proof.
  induction s as [|c s IH]; cbn [String.length substring];
    [reflexivity | now rewrite IH].
Qed.

Lemma substring_prefix_append (a b : string) :
  substring 0 (String.length a) (a ++ b) = a.
Proof.
  induction a as [|c a IH]; cbn [String.length append substring].
  - now destruct b.
  - now rewrite IH.
Qed.

Lemma split_at (n : nat) (s : string) :
  (n <= String.length s)%nat ->
  exists a, String.length a = n /\
            s = a ++ substring n (String.length s - n) s.
Proof.
  revert s. induction n as [|n IH]; intros s H.
  - exists "". rewrite Nat.sub_0_r, substring_whole. now split.
  - destruct s as [|c s]; cbn [String.length] in H; [lia|].
    destruct (IH s) as (a & La & E); [lia|].
    exists (String c a). cbn [String.length substring append Nat.sub].
    split; [now rewrite La | now rewrite <- E].
Qed.

Lemma ends_with_split (suffix s : string) :
  ends_with suffix s = true -> exists a, s = a ++ suffix.
Proof.
  unfold ends_with. intros H. apply andb_true_iff in H as [L E].
  apply Nat.leb_le in L. apply String.eqb_eq in E.
  destruct (split_at (String.length s - String.length suffix) s)
    as (a & _ & S); [lia|].
  exists a.
  replace (String.length s - (String.length s - String.length suffix))%nat
    with (String.length suffix) in S by lia.
  now rewrite E in S.
Qed.

Lemma last_dot_none (s : string) :
  occurs "."%char s = false -> last_dot s = None.
Proof.
  induction s as [|c s IH]; cbn [occurs last_dot]; [reflexivity|].
  intros H. apply orb_false_iff in H as [Hc Hs]. rewrite (IH Hs).
  rewrite Ascii.eqb_sym in Hc. now rewrite Hc.
Qed.

Lemma last_dot_before_suffix (a b : string) :
  occurs "."%char b = false ->
  last_dot (a ++ String "."%char b) = Some (String.length a).
Proof.
  intros H. induction a as [|c a IH]; cbn [append last_dot String.length].
  - rewrite (last_dot_none b H). now rewrite Ascii.eqb_refl.
  - now rewrite IH.
Qed.

Lemma stem_of_opus (a : string) :
  a <> "" -> stem (a ++ ".opus") = a.
Proof.
  intros ne. unfold stem.
  change (a ++ ".opus") with (a ++ String "."%char "opus").
  rewrite (last_dot_before_suffix a "opus" eq_refl), length_append.
  cbn [String.length].
  destruct a as [|c a]; [now elim ne|].
  replace ((0 <? String.length (String c a))
           && (String.length (String c a)
               <? String.length (String c a) + 5 - 1))%nat with true.
  - apply substring_prefix_append.
  - symmetry. apply andb_true_iff. cbn [String.length].
    split; apply Nat.ltb_lt; lia.
Qed.

Lemma prefix_of_append (x a b : string) :
  (String.length x <= String.length a)%nat ->
  prefix x (a ++ b) = true -> prefix x a = true.
Proof.
  revert a. induction x as [|c x IH]; intros a L H; [now destruct a|].
  destruct a as [|d a]; cbn [String.length] in L; [lia|].
  cbn [append prefix] in *. destruct (ascii_dec c d); [|discriminate].
  apply IH; [lia | exact H].
Qed.

(** X12. Every file a run looks at is named by its clip id followed by
    [.opus], the id starts with [song_], and the file is opened under
    the data directory; directory entries of any other name are not
    looked at. *)
Theorem globbed_files_name_their_clip (w : World) :
  Forall (fun name =>
            In name (listdir w) /\
            name = stem name ++ ".opus" /\
            prefix "song_" (stem name) = true /\
            path_of name = "data/raw/" ++ stem name ++ ".opus")
         (glob_song_opus w).
Proof.
  apply Forall_forall. intros name H.
  apply filter_In in H as [Hin M]. unfold matches_song_opus in M.
  apply andb_true_iff in M as [M L]. apply andb_true_iff in M as [P E].
  apply Nat.leb_le in L.
  destruct (ends_with_split _ _ E) as [a ->].
  rewrite length_append in L. cbn [String.length] in L.
  assert (a <> "") as ne by (intros ->; cbn in L; lia).
  rewrite (stem_of_opus a ne).
  repeat split; trivial.
  apply (prefix_of_append "song_" a ".opus"); [cbn; lia | exact P].
Qed.

End Discovery.

(** ** Aggregator: bounds of the averages *)

Section AverageBounds.

Lemma sum_nonneg (l : list Q) :
  Forall (fun x => 0 <= x)%Q l -> (0 <= fold_right Qplus 0 l)%Q.
Proof.
  induction 1 as [|x l Hx _ IH]; cbn [fold_right]; [apply Qle_refl | lra].
Qed.

Lemma sum_at_most (u : Q) (l : list Q) :
  Forall (fun x => x <= u)%Q l ->
  (fold_right Qplus 0 l <= u * inject_Z (Z.of_nat (List.length l)))%Q.
Proof.
  induction 1 as [|x l Hx _ IH]; cbn [fold_right List.length].
  - rewrite Qmult_0_r. apply Qle_refl.
  - rewrite Nat2Z.inj_succ. unfold Z.succ. rewrite inject_Z_plus.
    change (inject_Z 1) with 1%Q. nra.
Qed.

(** The reported average of values within [0, u] is within [0, u]. *)
Lemma average_within (u : Q) (l : list Q) :
  (0 <= u)%Q ->
  Forall (fun x => 0 <= x /\ x <= u)%Q l ->
  (0 <= average l)%Q /\ (average l <= u)%Q.
Proof.
  intros Hu H. destruct l as [|x l]; [split; [apply Qle_refl | exact Hu]|].
  assert (0 < inject_Z (Z.of_nat (List.length (x :: l))))%Q as Hn.
  { change 0%Q with (inject_Z 0). rewrite <- Zlt_Qlt.
    cbn [List.length]. lia. }
  assert (py_sum (x :: l) == fold_right Qplus 0 (x :: l))%Q as S.
  { unfold py_sum. rewrite fold_left_Qplus. ring. }
  unfold average. split.
  - apply Qle_shift_div_l; [exact Hn|]. rewrite S, Qmult_0_l.
    apply sum_nonneg. eapply Forall_impl; [|exact H]. now intros ? [? _].
  - apply Qle_shift_div_r; [exact Hn|]. rewrite S.
    apply sum_at_most. eapply Forall_impl; [|exact H]. now intros ? [_ ?].
Qed.

Lemma flatten_within (field : DiffEntry -> Q) (P : Q -> Prop)
  (ad : CorpusResults) :
  (forall e, entry_in_range e = true -> P (field e)) ->
  forallb (fun r => forallb (fun kv => entry_in_range (snd kv)) r)
          (PyDict.values ad) = true ->
  Forall P (flatten field ad).
Proof.
  intros HP H. rewrite forallb_forall in H.
  apply Forall_forall. intros x Hx. unfold flatten in Hx.
  apply in_flat_map in Hx as (r & Hr & Hx). unfold song_values in Hx.
  apply in_flat_map in Hx as (k & _ & Hx).
  destruct (PyDict.get k r) as [e|] eqn:G; [|contradiction].
  destruct Hx as [<-|[]]. apply HP.
  specialize (H r Hr). rewrite forallb_forall in H.
  exact (H _ (get_some_in _ _ _ G)).
Qed.

(** X9. When every entry of the results is within the ranges ([diff_mean]
    in [0, 1], [diff_std] in [0, 0.5]) so are the two averages the
    summary reports, the empty results included. *)
Theorem averages_within_ranges (all_differences : CorpusResults) :
  forallb (fun r => forallb (fun kv => entry_in_range (snd kv)) r)
          (PyDict.values all_differences) = true ->
  (0 <= avg_mean_diff all_differences)%Q /\
  (avg_mean_diff all_differences <= 1)%Q /\
  (0 <= avg_std_diff all_differences)%Q /\
  (avg_std_diff all_differences <= 1 # 2)%Q.
Proof.
  intros H. unfold avg_mean_diff, avg_std_diff. rewrite collect_all_flat.
  cbn [fst snd].
  assert (range : forall e, entry_in_range e = true ->
                            ((0 <= diff_mean e)%Q /\ (diff_mean e <= 1)%Q) /\
                            ((0 <= diff_std e)%Q /\ (diff_std e <= 1 # 2)%Q)).
  { intros e. unfold entry_in_range.
    rewrite !andb_true_iff, !Qle_bool_iff. tauto. }
  destruct (average_within 1 (flatten diff_mean all_differences))
    as [A B]; [discriminate | |].
  { apply flatten_within; [|exact H]. intros e He. now apply range. }
  destruct (average_within (1 # 2) (flatten diff_std all_differences))
    as [C D]; [discriminate | |].
  { apply flatten_within; [|exact H]. intros e He. now apply range. }
  now repeat split.
Qed.

Lemma averages_within_ranges_witness :
  (0 <= avg_mean_diff corpus_in_range)%Q /\
  (avg_mean_diff corpus_in_range <= 1)%Q /\
  (0 <= avg_std_diff corpus_in_range)%Q /\
  (avg_std_diff corpus_in_range <= 1 # 2)%Q.
Proof.
  apply (averages_within_ranges corpus_in_range). reflexivity.
Defined.

End AverageBounds.

(** ** Orchestrator: what becomes of a clip *)

Section ClipOutcomes.

(** X4. A reply on which the decoder raises a [JSONDecodeError] and which
    holds no brace span is scored, not dropped: the empty bundle it
    yields gives the full penalty under all nine keys against any
    ground-truth object. *)
Theorem unreadable_reply_scores_full_penalty (w : World) (s : string)
  (truth : PyDict.t pyval) :
  json_loads w s = Raise JSONDecodeError -> re_search_braces s = None ->
  rbind (extract w (PStr s)) (calculate_differences (PDict truth))
  = Ok (map (fun k => (k, max_penalty)) emotions).
Proof.
  intros D R. unfold extract, py_json_loads. rewrite D, R. cbn [rbind].
  unfold calculate_differences, emotions. cbn [calculate_differences_loop].
  repeat (rewrite emotion_difference_absent
            by (cbn [PyDict.mem PyDict.get]; apply andb_false_r);
          cbn [rbind]).
  reflexivity.
Qed.

Lemma unreadable_reply_scores_full_penalty_witness :
  rbind (extract no_key_world (PStr "I cannot rate this clip."))
        (calculate_differences (PDict malformed_truth))
  = Ok (map (fun k => (k, max_penalty)) emotions).
Proof.
  apply (unreadable_reply_scores_full_penalty no_key_world
           "I cannot rate this clip." malformed_truth); reflexivity.
Defined.

(** X14. A clip whose analysis raises, for whatever reason, is logged and
    dropped: the line after its trace names the exception, and the
    results stay as they were. *)
Theorem failed_analysis_is_logged_and_dropped (w : World)
  (store : PyDict.t pyval) (ls : PyDict.t Z) (ad : CorpusResults)
  (audio_file : string) (n : Z) (e : exn) :
  PyDict.mem (stem audio_file) store = true ->
  PyDict.get (stem audio_file) ls = Some n ->
  snd (analyze_audio w (path_of audio_file) n) = Raise e ->
  process_clip w (PDict store) ls ad audio_file
  = ((EPrint ("Processing " ++ stem audio_file ++ "...")
        :: fst (analyze_audio w (path_of audio_file) n))
       ++ [EPrintExn "  Error: " e],
     Ok ad)%list.
Proof.
  intros S L A. unfold process_clip. cbn [py_contains lift bind].
  unfold PyDict.mem at 2. rewrite S, L. cbn [negb orb print emit bind].
  unfold try_clip, clip_differences. rewrite L. cbn [lift bind].
  destruct (analyze_audio w (path_of audio_file) n) as [tr r].
  cbn [fst snd] in *. subst r. reflexivity.
Qed.

Lemma failed_analysis_is_logged_and_dropped_witness :
  process_clip refusing_world (PDict truth_store) listeners [] "song_1.opus"
  = ((EPrint ("Processing " ++ stem "song_1.opus" ++ "...")
        :: fst (analyze_audio refusing_world (path_of "song_1.opus") 48))
       ++ [EPrintExn "  Error: " (Exception_ "API error: 500")],
     Ok [])%list.
Proof.
  apply (failed_analysis_is_logged_and_dropped refusing_world truth_store
           listeners [] "song_1.opus" 48 (Exception_ "API error: 500"));
    reflexivity.
Defined.



Lemma keys_set_nodup {V} (k : string) (v : V) (d : PyDict.t V) :
  NoDup (PyDict.keys d) -> NoDup (PyDict.keys (PyDict.set k v d)).
Proof.
  intros H. rewrite keys_set. destruct (PyDict.mem k d) eqn:M; [exact H|].
  apply NoDup_app; [exact H | |].
  - constructor; [intros [] | constructor].
  - intros x Hx [->|[]]. destruct (get_of_key x d Hx) as [v' G].
    unfold PyDict.mem in M. now rewrite G in M.
Qed.

Lemma length_set {V} (k : string) (v : V) (d : PyDict.t V) :
  (List.length (PyDict.set k v d) <= S (List.length d))%nat.
Proof.
  induction d as [|[k0 v0] d IH]; cbn [PyDict.set List.length]; [lia|].
  destruct (String.eqb k k0); cbn [List.length]; lia.
Qed.

Lemma main_loop_distinct (w : World) (truth_data : pyval) (ls : PyDict.t Z)
  (audio_files : list string) (ad ad' : CorpusResults) (tr : list event) :
  NoDup (PyDict.keys ad) ->
  main_loop w truth_data ls audio_files ad = (tr, Ok ad') ->
  NoDup (PyDict.keys ad') /\
  (List.length ad' <= List.length ad + List.length audio_files)%nat.
Proof.
  revert ad tr. induction audio_files as [|f rest IH]; intros ad tr N;
    cbn [main_loop List.length].
  - intros [= _ <-]. split; [exact N | lia].
  - intros H. apply bind_ok_inv in H as (tr1 & ad1 & tr2 & P & L & _).
    apply process_clip_result in P as [->|(d & -> & _ & _)].
    + destruct (IH _ _ N L). split; [assumption | lia].
    + destruct (IH _ _ (keys_set_nodup (stem f) d ad N) L) as [N' B].
      split; [exact N'|]. pose proof (length_set (stem f) d ad). lia.
Qed.

(** X18. The results of a run hold each clip id once, hold at most one
    record per file that was found, and give every clip the same weight
    in the averages: nine values for each field. *)
Theorem run_results_one_record_per_clip (w : World) (truth_data : pyval)
  (ls : PyDict.t Z) (audio_files : list string) (tr : list event)
  (ad : CorpusResults) :
  main_loop w truth_data ls audio_files [] = (tr, Ok ad) ->
  NoDup (PyDict.keys ad) /\
  (List.length ad <= List.length audio_files)%nat /\
  forall field : DiffEntry -> Q,
    List.length (flatten field ad) = (9 * List.length ad)%nat.
Proof.
  intros L.
  destruct (main_loop_distinct w truth_data ls audio_files [] ad tr)
    as [N B]; [constructor | exact L |].
  split; [exact N|]. split; [exact B|]. intros field.
  assert (Forall (fun r => PyDict.keys r = emotions) (PyDict.values ad)) as C.
  { apply (main_loop_records_complete w truth_data ls audio_files [] ad tr);
      [constructor | exact L]. }
  rewrite (flatten_all_keys field ad C). clear - C.
  unfold PyDict.values in *.
  induction ad as [|[k r] ad IH]; [reflexivity|].
  cbn [map snd flat_map] in *. inversion_clear C as [|? ? K C'].
  rewrite length_app, !length_map, (IH C'). cbn [List.length].
  assert (List.length r = 9%nat) as ->; [|lia].
  unfold PyDict.keys in K. rewrite <- (length_map fst r), K. reflexivity.
Qed.

Lemma run_results_one_record_per_clip_witness :
  exists ad : CorpusResults,
    snd (main_loop (keyed_world unsorted_names) (PDict truth_store) listeners
                   unsorted_names []) = Ok ad /\
    NoDup (PyDict.keys ad) /\
    (List.length ad <= List.length unsorted_names)%nat /\
    forall field : DiffEntry -> Q,
      List.length (flatten field ad) = (9 * List.length ad)%nat.
Proof.
  eexists. split; [vm_compute; reflexivity|].
  apply (run_results_one_record_per_clip (keyed_world unsorted_names)
           (PDict truth_store) listeners unsorted_names
           (fst (main_loop (keyed_world unsorted_names) (PDict truth_store)
                           listeners unsorted_names []))).
  vm_compute. reflexivity.
Defined.

End ClipOutcomes.
